(** * LLMeaning: batch generation of thinker essays and questionnaires

    A shallow embedding of the four Python scripts of the repository

      - [generate_thinker_meaning.py]
      - [generate_thinker_questionnaires.py]
      - [batch_generate_thinkers.py]
      - [batch_generate_questionnaires.py]

    Python [str] values are sequences of Unicode code points ([list N]).
    Effects (console output, the file system, the text-generation
    collaborator, child processes, the pause between items) are threaded
    explicitly: a script is a function from an environment of oracles and
    a mutable world to a result (normal return or a raised exception) and
    the world it leaves behind. *)

From Stdlib Require Import NArith Ascii String.
From stdpp Require Import gmap list sorting pretty.

(** ** Python strings *)

Module PyStr.

(** A Python [str]: a sequence of code points. *)
Definition str := list N.

Definition bytes_of (s : string) : list N :=
  List.map N_of_ascii (list_ascii_of_string s).

(** The source files are UTF-8; a literal of the source is read through the
    UTF-8 decoder (1 to 4 byte sequences). *)
Fixpoint utf8_decode (bs : list N) : str :=
  match bs with
  | [] => []
  | b0 :: r0 =>
    if (b0 <? 128)%N then b0 :: utf8_decode r0
    else
      match r0 with
      | [] => [b0]
      | b1 :: r1 =>
        if (b0 <? 224)%N then
          ((b0 - 192) * 64 + (b1 - 128))%N :: utf8_decode r1
        else
          match r1 with
          | [] => [b0; b1]
          | b2 :: r2 =>
            if (b0 <? 240)%N then
              ((b0 - 224) * 4096 + (b1 - 128) * 64 + (b2 - 128))%N
                :: utf8_decode r2
            else
              match r2 with
              | [] => [b0; b1; b2]
              | b3 :: r3 =>
                ((b0 - 240) * 262144 + (b1 - 128) * 4096
                 + (b2 - 128) * 64 + (b3 - 128))%N :: utf8_decode r3
              end
          end
      end
  end.

(** [py "..."] is the Python string written ["..."] in the source. *)
Definition py (s : string) : str := utf8_decode (bytes_of s).
Arguments py s%_string_scope.

(** [str(n)] for a non-negative integer. *)
Definition str_of_nat (n : nat) : str := py (pretty n).

(** [c * n] for a one-character string [c]. *)
Definition repeat_char (c : N) (n : nat) : str := replicate n c.

(** [sep.join(parts)] *)
Fixpoint join (sep : str) (parts : list str) : str :=
  match parts with
  | [] => []
  | [p] => p
  | p :: rest => p ++ sep ++ join sep rest
  end.

Fixpoint is_prefix (p s : str) : bool :=
  match p, s with
  | [], _ => true
  | _ :: _, [] => false
  | x :: p', y :: s' => (x =? y)%N && is_prefix p' s'
  end.

(** [s.endswith(suffix)] *)
Definition endswith (s suffix : str) : bool :=
  is_prefix (reverse suffix) (reverse s).

(** [s.startswith(prefix)] *)
Definition startswith (s prefix : str) : bool := is_prefix prefix s.

(** The scan of [s.replace(old, new)] for a non-empty [old]: left to
    right, non-overlapping.  [skip] counts the characters of a match that
    are still to be passed over. *)
Fixpoint replace_scan (old new : str) (skip : nat) (s : str) : str :=
  match s with
  | [] => []
  | c :: s' =>
    match skip with
    | S k => replace_scan old new k s'
    | O =>
      if is_prefix old s
      then new ++ replace_scan old new (length old - 1) s'
      else c :: replace_scan old new 0 s'
    end
  end.

(** [s.replace(old, new)]; with an empty [old] Python inserts [new] before
    every character and at the end. *)
Definition replace (old new s : str) : str :=
  match old with
  | [] => new ++ flat_map (fun c => c :: new) s
  | _ :: _ => replace_scan old new 0 s
  end.

(** *** Character properties

    The case tables are those of the Unicode blocks Basic Latin and
    Latin-1 Supplement (code points below 256), which hold every
    character of every name the repository uses; code points from 256 on
    are left as they are by the case mappings below and count as uncased. *)

Definition in_range (lo hi c : N) : bool := (lo <=? c)%N && (c <=? hi)%N.

(** Has an uppercase-to-lowercase simple mapping (adds 32). *)
Definition is_upper_latin1 (c : N) : bool :=
  in_range 65 90 c || in_range 192 214 c || in_range 216 222 c.

(** Has a lowercase-to-uppercase simple mapping (subtracts 32). *)
Definition is_lower_simple_latin1 (c : N) : bool :=
  in_range 97 122 c || in_range 224 246 c || in_range 248 254 c.

(** [_PyUnicode_IsCased]: upper-case, lower-case or title-case letter. *)
Definition is_cased (c : N) : bool :=
  is_upper_latin1 c || is_lower_simple_latin1 c
  || (c =? 170)%N || (c =? 181)%N || (c =? 186)%N
  || (c =? 223)%N || (c =? 255)%N.

Definition lower_cp (c : N) : N :=
  if is_upper_latin1 c then (c + 32)%N else c.

(** Full title-case mapping of one code point; the sharp s maps to two
    code points, the micro sign and y-diaeresis leave Latin-1. *)
Definition title_cp (c : N) : str :=
  if is_lower_simple_latin1 c then [(c - 32)%N]
  else if (c =? 181)%N then [924%N]
  else if (c =? 223)%N then [83%N; 115%N]
  else if (c =? 255)%N then [376%N]
  else [c].

(** [s.lower()] *)
Definition lower (s : str) : str := List.map lower_cp s.

(** The loop of [s.title()]: a character that follows a cased character is
    lower-cased, any other character is title-cased. *)
Fixpoint title_scan (previous_is_cased : bool) (s : str) : str :=
  match s with
  | [] => []
  | c :: s' =>
    (if previous_is_cased then [lower_cp c] else title_cp c)
      ++ title_scan (is_cased c) s'
  end.

(** [s.title()] *)
Definition title (s : str) : str := title_scan false s.

(** [c.isspace()] *)
Definition is_space (c : N) : bool :=
  in_range 9 13 c || in_range 28 32 c || (c =? 133)%N || (c =? 160)%N
  || (c =? 5760)%N || in_range 8192 8202 c || (c =? 8232)%N
  || (c =? 8233)%N || (c =? 8239)%N || (c =? 8287)%N || (c =? 12288)%N.

Fixpoint lstrip (s : str) : str :=
  match s with
  | [] => []
  | c :: s' => if is_space c then lstrip s' else s
  end.

Definition rstrip (s : str) : str := reverse (lstrip (reverse s)).

(** [s.strip()] *)
Definition strip (s : str) : str := rstrip (lstrip s).

(** Truth value of a string: non-empty. *)
Definition str_truthy (s : str) : bool :=
  match s with [] => false | _ :: _ => true end.

(** Truth value of a [str]-or-[None] value. *)
Definition truthy (v : option str) : bool :=
  match v with Some s => str_truthy s | None => false end.

(** *** Ordering: [a <= b] on strings compares code points
    lexicographically. *)
Fixpoint str_leb (a b : str) : bool :=
  match a, b with
  | [], _ => true
  | _ :: _, [] => false
  | x :: a', y :: b' =>
    if (x <? y)%N then true
    else if (y <? x)%N then false
    else str_leb a' b'
  end.

Definition str_le (a b : str) : Prop := str_leb a b = true.

#[global] Instance str_le_dec (a b : str) : Decision (str_le a b).
Proof. unfold str_le. apply _. Defined.

(** [sorted(l)] on a list of strings: the ascending arrangement of [l]
    (Python's sort is a stable comparison sort; on a total antisymmetric
    order its result is the one sorted permutation, see
    [sorted_characterised]). *)
Definition sorted (l : list str) : list str := merge_sort str_le l.

End PyStr.

Import PyStr.

(** ** Naming convention: display name, slug, file name *)

Module Naming.

(** [Path(dir) / name] rendered as a string.  An absolute right operand
    replaces the left one; pathlib's removal of redundant separators and
    of [.] components is not modelled, paths are compared as written. *)
Definition path_join (dir name : str) : str :=
  if startswith name (py "/") then name else dir ++ py "/" ++ name.

Definition thinkers_dir : str :=
  Eval vm_compute in py "../thinkers_texts".
Definition questionnaires_dir : str :=
  Eval vm_compute in py "../generated_questionnaires".

(** [thinker_name.replace(' ', '_').lower()] *)
Definition slug (thinker_name : str) : str :=
  lower (replace (py " ") (py "_") thinker_name).

(** [f"{thinker_name.replace(' ', '_').lower()}_meaning.txt"] *)
Definition meaning_filename (thinker_name : str) : str :=
  slug thinker_name ++ py "_meaning.txt".

(** [f"{thinker_name.replace(' ', '_').lower()}_questionnaire.txt"] *)
Definition questionnaire_filename (thinker_name : str) : str :=
  slug thinker_name ++ py "_questionnaire.txt".

Definition meaning_filepath (thinker_name : str) : str :=
  path_join thinkers_dir (meaning_filename thinker_name).

Definition questionnaire_filepath (thinker_name : str) : str :=
  path_join questionnaires_dir (questionnaire_filename thinker_name).

(** [name.rfind(c)] *)
Fixpoint find_index (c : N) (s : str) : option nat :=
  match s with
  | [] => None
  | x :: s' => if (x =? c)%N then Some 0 else S <$> find_index c s'
  end.

Definition rfind (c : N) (s : str) : option nat :=
  (fun j => length s - 1 - j) <$> find_index c (reverse s).

(** [Path.stem] of a file name, that is of one path component, as the
    entries of a directory are: the name without its last suffix; a
    leading or a trailing dot does not start a suffix. *)
Definition stem (name : str) : str :=
  match rfind 46 name with
  | Some i =>
    if (0 <? i) && (i <? length name - 1) then take i name else name
  | None => name
  end.

(** The names [dir.glob("*" + suffix)] yields, in the order the directory
    enumerates its entries. *)
Definition glob_suffix (suffix : str) (entries : list str) : list str :=
  List.filter (fun name => endswith name suffix) entries.

(** [thinkers_dir.glob("*_meaning.txt")] *)
Definition glob_meaning (entries : list str) : list str :=
  glob_suffix (py "_meaning.txt") entries.

(** The body of the loop of [get_available_thinkers]. *)
Definition generic_name (file : str) : str :=
  title (replace (py "_") (py " ")
           (replace (py "_meaning") (py "") (stem file))).

Definition thinker_name_of_file (file : str) : str :=
  let thinker_name := generic_name file in
  if decide (thinker_name = py "Jean-paul Sartre")
  then py "Jean-Paul Sartre"
  else if decide (thinker_name = py "Søren Kierkegaard")
  then py "Søren Kierkegaard"
  else thinker_name.

(** [get_available_thinkers()]; [dir] is [None] when [../thinkers_texts]
    does not exist and otherwise lists its entries in enumeration order. *)
Definition get_available_thinkers (dir : option (list str)) : list str :=
  let thinkers :=
    match dir with
    | Some entries => List.map thinker_name_of_file (glob_meaning entries)
    | None => []
    end in
  sorted thinkers.

End Naming.

Import Naming.

(** ** Effects: exceptions, the world, the oracles *)

Module Effects.

(** The exceptions the scripts raise or meet; all are subclasses of
    [Exception].  [OtherError] stands for any further subclass (an API
    error, an [OSError], ...). *)
Inductive exn :=
| ValueError (msg : str)
| FileNotFoundError (msg : str)
| OtherError (msg : str).

(** [str(e)] *)
Definition exn_msg (e : exn) : str :=
  match e with
  | ValueError msg | FileNotFoundError msg | OtherError msg => msg
  end.

(** The f-string prompt templates, represented by the values that fill
    their holes. *)
Inductive prompt :=
| EssayPrompt (thinker_name : str)
| QuestionnairePrompt (thinker_name thinker_text : str).

(** The arguments of [client.chat.completions.create]; the temperature is
    kept in tenths (0.7). *)
Record request := {
  req_model : str;
  req_system : str;
  req_user : prompt;
  req_max_tokens : N;
  req_temperature_tenths : N;
}.

(** What the collaborator does with a request: it raises, or it answers
    and [response.choices[0].message.content] is the given text. *)
Inductive api_outcome :=
| ApiRaises (e : exn)
| ApiReturns (content : str).

(** What [subprocess.run] does: the child runs to completion, or the call
    itself raises. *)
Inductive sub_outcome :=
| Completed (returncode : Z) (stdout stderr : str)
| SpawnRaises (e : exn).

Inductive event :=
| Print (text : str)
| Mkdir (path : str)
| WriteFile (path content : str)
| ChatCompletion (api_key : str) (req : request)
| Input (prompt_text : str)
| Subprocess (cmd : list str)
| Sleep (seconds : nat).

(** The mutable world of a process: the files it can see (path to
    content) and what it has done so far. *)
Record world := {
  files : gmap str str;
  trace : list event;
}.

(** The oracles of a single-item run. *)
Record env := {
  (** [os.getenv('OPENAI_API_KEY')] *)
  environ_api_key : option str;
  (** [datetime.now().strftime("%Y-%m-%d %H:%M:%S")] *)
  now : str;
  (** the external text-generation collaborator *)
  chat_completion : str -> request -> api_outcome;
  (** the exception [open(path, 'w')] raises, if any *)
  open_for_write : str -> option exn;
}.

Inductive result (A : Type) :=
| Return (a : A)
| Raise (e : exn).
Arguments Return {A} a.
Arguments Raise {A} e.

(** A computation: runs on a world, returns or raises, leaves a world. *)
Definition M (A : Type) : Type := world -> result A * world.

#[global] Instance M_ret : MRet M := fun A a w => (Return a, w).

#[global] Instance M_bind : MBind M := fun A B f m w =>
  match m w with
  | (Return a, w') => f a w'
  | (Raise e, w') => (Raise e, w')
  end.

Definition raise {A} (e : exn) : M A := fun w => (Raise e, w).

(** [try: body except Exception as e: handler(e)] *)
Definition try_except {A} (body : M A) (handler : exn -> M A) : M A :=
  fun w =>
    match body w with
    | (Return a, w') => (Return a, w')
    | (Raise e, w') => handler e w'
    end.

Definition emit (e : event) : M unit := fun w =>
  (Return tt, {| files := files w; trace := trace w ++ [e] |}).

Definition print (text : str) : M unit := emit (Print text).

(** The history so far, for oracles that depend on it. *)
Definition history : M (list event) := fun w => (Return (trace w), w).

(** [filepath.exists()] and [open(filepath).read()] in one: the content
    of the file, if it exists.  The content comes back as it was written:
    the translation of carriage returns that text mode applies on
    reading, and a read that fails on a path that exists, are not part
    of this model. *)
Definition lookup_file (path : str) : M (option str) := fun w =>
  (Return (files w !! path), w).

(** [with open(path, 'w') as f: f.write(...)]: creates or overwrites.
    The one failure of the save step this model knows is the one of
    [open]. *)
Definition write_file (E : env) (path content : str) : M unit := fun w =>
  match open_for_write E path with
  | Some e => (Raise e, w)
  | None =>
    (Return tt, {| files := <[path := content]> (files w);
                   trace := trace w ++ [WriteFile path content] |})
  end.

(** The exit status of the Python process whose [main()] ended so: 0 when
    it returned, 1 when an exception escaped it.  [main] is entered with
    the parsed command line; a command line that [argparse] refuses ends
    the process before that, with status 2. *)
Definition exit_code {A} (r : result A) : Z :=
  match r with
  | Return _ => 0
  | Raise _ => 1
  end.

Definition nl : str := [10%N].

(** The parsed command line of a single-item script. *)
Record args := {
  arg_thinker_name : str;
  arg_api_key : option str;
  arg_model : str;
}.

(** The value of a [str]-or-[None] variable when it is truthy. *)
Definition truthy_value (v : option str) : option str :=
  match v with
  | Some k => if str_truthy k then Some k else None
  | None => None
  end.

Definition key_not_found : str :=
  Eval vm_compute in
  py "OpenAI API key not found. Please set OPENAI_API_KEY environment variable or pass it as argument.".

(** [setup_openai_client(api_key)], the same text in both single-item
    scripts; the client is represented by the key it was built with. *)
Definition setup_openai_client (E : env) (api_key : option str) : M str :=
  match truthy_value api_key with
  | Some k => mret k
  | None =>
    match truthy_value (environ_api_key E) with
    | None => raise (ValueError key_not_found)
    | Some k => mret k
    end
  end.

End Effects.

Import Effects.

(** ** generate_thinker_meaning.py *)

Module Meaning.

Definition system_content : str :=
  Eval vm_compute in
  py "You are a knowledgeable philosophy researcher specializing in the study of meaning and purpose in human existence.".

Definition generate_thinker_meaning_essay
    (E : env) (thinker_name : str) (api_key : option str) (model : str)
    : M (option str) :=
  client ← setup_openai_client E api_key;
  let prompt := EssayPrompt thinker_name in
  let req := {| req_model := model; req_system := system_content;
                req_user := prompt; req_max_tokens := 1000;
                req_temperature_tenths := 7 |} in
  emit (ChatCompletion client req);;
  match chat_completion E client req with
  | ApiReturns content => mret (Some (strip content))
  | ApiRaises e =>
    print (py "Error generating essay: " ++ exn_msg e);;
    mret None
  end.

Definition header (timestamp thinker_name : str) : str :=
  py "Generated on: " ++ timestamp ++ nl
  ++ py "Thinker: " ++ thinker_name ++ nl
  ++ repeat_char 61 50 ++ nl ++ nl.

Definition save_thinker_essay (E : env) (thinker_name essay_text : str)
    : M str :=
  emit (Mkdir thinkers_dir);;
  let filename := meaning_filename thinker_name in
  let filepath := path_join thinkers_dir filename in
  let timestamp := now E in
  write_file E filepath (header timestamp thinker_name ++ essay_text);;
  print (py "Essay saved to: " ++ filepath);;
  mret filepath.

Definition main (E : env) (a : args) : M unit :=
  print (py "Generating essay about " ++ arg_thinker_name a
         ++ py "'s ideas on meaning...");;
  essay ← generate_thinker_meaning_essay E (arg_thinker_name a)
            (arg_api_key a) (arg_model a);
  match truthy_value essay with
  | Some essay =>
    filepath ← save_thinker_essay E (arg_thinker_name a) essay;
    print (nl ++ py "Essay generated successfully!");;
    print (py "File saved: " ++ filepath)
  | None => print (py "Failed to generate essay.")
  end.

End Meaning.

(** ** generate_thinker_questionnaires.py *)

Module Questionnaire.

Definition system_content : str :=
  Eval vm_compute in
  py "You are an expert in psychological measurement and philosophy, specializing in creating valid questionnaires that capture philosophical concepts about meaning and purpose.".

Definition read_thinker_text (thinker_name : str) : M str :=
  let filename := meaning_filename thinker_name in
  let filepath := path_join thinkers_dir filename in
  content ← lookup_file filepath;
  match content with
  | None =>
    raise (FileNotFoundError (py "Thinker text file not found: " ++ filepath))
  | Some text => mret text
  end.

Definition generate_thinker_questionnaire
    (E : env) (thinker_name thinker_text : str) (api_key : option str)
    (model : str) : M (option str) :=
  client ← setup_openai_client E api_key;
  let prompt := QuestionnairePrompt thinker_name thinker_text in
  let req := {| req_model := model; req_system := system_content;
                req_user := prompt; req_max_tokens := 2000;
                req_temperature_tenths := 7 |} in
  emit (ChatCompletion client req);;
  match chat_completion E client req with
  | ApiReturns content => mret (Some (strip content))
  | ApiRaises e =>
    print (py "Error generating questionnaire: " ++ exn_msg e);;
    mret None
  end.

Definition header (timestamp thinker_name : str) : str :=
  py "Generated on: " ++ timestamp ++ nl
  ++ py "Thinker: " ++ thinker_name ++ nl
  ++ py "Questionnaire Type: Meaning in Life" ++ nl
  ++ repeat_char 61 50 ++ nl ++ nl.

Definition save_questionnaire (E : env) (thinker_name questionnaire_text : str)
    : M str :=
  emit (Mkdir questionnaires_dir);;
  let filename := questionnaire_filename thinker_name in
  let filepath := path_join questionnaires_dir filename in
  let timestamp := now E in
  write_file E filepath (header timestamp thinker_name ++ questionnaire_text);;
  print (py "Questionnaire saved to: " ++ filepath);;
  mret filepath.

Definition main (E : env) (a : args) : M unit :=
  print (py "Generating questionnaire based on " ++ arg_thinker_name a
         ++ py "'s ideas about meaning...");;
  try_except
    (thinker_text ← read_thinker_text (arg_thinker_name a);
     print (py "✅ Loaded " ++ arg_thinker_name a ++ py "'s text ("
            ++ str_of_nat (length thinker_text) ++ py " characters)");;
     questionnaire ← generate_thinker_questionnaire E (arg_thinker_name a)
                       thinker_text (arg_api_key a) (arg_model a);
     match truthy_value questionnaire with
     | Some questionnaire =>
       filepath ← save_questionnaire E (arg_thinker_name a) questionnaire;
       print (nl ++ py "✅ Questionnaire generated successfully!");;
       print (py "📁 File saved: " ++ filepath)
     | None => print (py "❌ Failed to generate questionnaire.")
     end)
    (fun e =>
       match e with
       | FileNotFoundError _ =>
         print (py "❌ Error: " ++ exn_msg e);;
         print (py "Make sure the thinker's text file exists in ../thinkers_texts/")
       | _ => print (py "❌ Error: " ++ exn_msg e)
       end).

End Questionnaire.

(** ** The batch orchestrators

    [batch_generate_thinkers.py] and [batch_generate_questionnaires.py]
    carry the same runner and the same loop; they differ in the script
    they start, the words of their messages and the length of the pause,
    which are the parameters here. *)

Module Batch.

(** The oracles of a batch run.  A child process and the directories are
    outside the orchestrator: what they give may depend on everything the
    orchestrator has done so far. *)
Record batch_env := {
  (** [sys.executable] *)
  sys_executable : str;
  (** the line the user types at [input(...)] *)
  stdin_line : str;
  (** [subprocess.run(cmd, capture_output=True, text=True, cwd=...)] *)
  subprocess_run : list event -> list str -> sub_outcome;
  (** the entries of a directory, [None] when it does not exist *)
  listdir : list event -> str -> option (list str);
}.

(** [run_thinker_generation] / [run_questionnaire_generation] *)
Definition run_generation (B : batch_env) (script noun : str)
    (thinker_name : str) (api_key : option str) : M bool :=
  try_except
    (let cmd := [sys_executable B; script; thinker_name] in
     let cmd :=
       match truthy_value api_key with
       | Some k => cmd ++ [py "--api-key"; k]
       | None => cmd
       end in
     print (nl ++ repeat_char 61 60);;
     print (py "Generating " ++ noun ++ py " for: " ++ thinker_name);;
     print (repeat_char 61 60);;
     h ← history;
     emit (Subprocess cmd);;
     match subprocess_run B h cmd with
     | SpawnRaises e => raise e
     | Completed returncode stdout stderr =>
       if (returncode =? 0)%Z then
         print (py "✅ Successfully generated " ++ noun ++ py " for "
                ++ thinker_name);;
         (if str_truthy stdout then print stdout else mret tt);;
         mret true
       else
         print (py "❌ Failed to generate " ++ noun ++ py " for "
                ++ thinker_name);;
         (if str_truthy stderr then print (py "Error: " ++ stderr)
          else mret tt);;
         mret false
     end)
    (fun e =>
       print (py "❌ Error processing " ++ thinker_name ++ py ": "
              ++ exn_msg e);;
       mret false).

(** The body of [for i, thinker in enumerate(thinkers, 1)], from item
    number [i] on; [n] is [len(thinkers)]. *)
Fixpoint for_each (run : str -> M bool) (seconds : nat) (n i : nat)
    (items : list str) (successful failed : nat) : M (nat * nat) :=
  match items with
  | [] => mret (successful, failed)
  | thinker :: rest =>
    print (nl ++ py "📝 Processing " ++ str_of_nat i ++ py "/"
           ++ str_of_nat n ++ py ": " ++ thinker);;
    ok ← run thinker;
    let successful := if ok : bool then successful + 1 else successful in
    let failed := if ok : bool then failed else failed + 1 in
    (if i <? n then
       print (py "⏳ Waiting " ++ str_of_nat seconds
              ++ py " seconds before next request...");;
       emit (Sleep seconds)
     else mret tt);;
    for_each run seconds n (i + 1) rest successful failed
  end.

(** [successful = 0; failed = 0; for ...] *)
Definition process_all (run : str -> M bool) (seconds : nat)
    (thinkers : list str) : M (nat * nat) :=
  for_each run seconds (length thinkers) 1 thinkers 0 0.

(** [api_key = input(...).strip()], [None] when empty. *)
Definition ask_api_key (B : batch_env) : M (option str) :=
  emit (Input (py "Enter your OpenAI API key (or press Enter if set as environment variable): "));;
  mret (truthy_value (Some (strip (stdin_line B)))).

Fixpoint print_each (prefix : str) (names : list str) : M unit :=
  match names with
  | [] => mret tt
  | name :: rest => print (prefix ++ name);; print_each prefix rest
  end.

(** The report after the loop. *)
Definition summary (B : batch_env) (title_line saved_line dir suffix : str)
    (successful failed total : nat) : M unit :=
  print (nl ++ repeat_char 61 60);;
  print title_line;;
  print (repeat_char 61 60);;
  print (py "✅ Successful: " ++ str_of_nat successful);;
  print (py "❌ Failed: " ++ str_of_nat failed);;
  print (py "📊 Total processed: " ++ str_of_nat total);;
  if 0 <? successful then
    print saved_line;;
    print (py "Files created:");;
    h ← history;
    match listdir B h dir with
    | Some entries => print_each (py "  - ") (glob_suffix suffix entries)
    | None => mret tt
    end
  else mret tt.

End Batch.

(** *** batch_generate_thinkers.py *)

Module BatchThinkers.
Import Batch.

Definition run_thinker_generation (B : batch_env) :=
  run_generation B (py "generate_thinker_meaning.py") (py "essay").

Definition thinkers : list str :=
  [py "Viktor Frankl"; py "Albert Camus"; py "Jean-Paul Sartre";
   py "Friedrich Nietzsche"; py "Søren Kierkegaard"].

Definition pause_seconds : nat := 2.

(** The part of [main] up to and including the loop, with the list of
    thinkers as a parameter. *)
Definition run_batch (B : batch_env) (thinkers : list str)
    : M (nat * nat) :=
  api_key ← ask_api_key B;
  print (nl ++ py "🚀 Starting batch generation for "
         ++ str_of_nat (length thinkers) ++ py " thinkers...");;
  print (py "Thinkers to process: " ++ join (py ", ") thinkers);;
  process_all (fun thinker => run_thinker_generation B thinker api_key)
    pause_seconds thinkers.

Definition main (B : batch_env) : M unit :=
  '(successful, failed) ← run_batch B thinkers;
  summary B (py "🎉 BATCH PROCESSING COMPLETE")
    (nl ++ py "📁 Generated essays saved in: ../thinkers_texts/")
    thinkers_dir (py "_meaning.txt") successful failed (length thinkers).

End BatchThinkers.

(** *** batch_generate_questionnaires.py *)

Module BatchQuestionnaires.
Import Batch.

Definition run_questionnaire_generation (B : batch_env) :=
  run_generation B (py "generate_thinker_questionnaires.py")
    (py "questionnaire").

Definition pause_seconds : nat := 3.

(** The part of [main] from the credential prompt to the end of the
    loop. *)
Definition run_batch (B : batch_env) (thinkers : list str)
    : M (nat * nat) :=
  api_key ← ask_api_key B;
  print (nl ++ py "🚀 Starting batch questionnaire generation for "
         ++ str_of_nat (length thinkers) ++ py " thinkers...");;
  print (py "Thinkers to process: " ++ join (py ", ") thinkers);;
  process_all (fun thinker => run_questionnaire_generation B thinker api_key)
    pause_seconds thinkers.

Definition main (B : batch_env) : M unit :=
  h ← history;
  let thinkers := get_available_thinkers (listdir B h thinkers_dir) in
  match thinkers with
  | [] =>
    print (py "❌ No thinker text files found in ../thinkers_texts/");;
    print (py "Please run the batch_generate_thinkers.py script first to create thinker essays.")
  | _ :: _ =>
    '(successful, failed) ← run_batch B thinkers;
    summary B (py "🎉 BATCH QUESTIONNAIRE GENERATION COMPLETE")
      (nl ++ py "📁 Generated questionnaires saved in: ../generated_questionnaires/")
      questionnaires_dir (py "_questionnaire.txt")
      successful failed (length thinkers)
  end.

End BatchQuestionnaires.

(** * Vocabulary of the properties *)

Module Obs.

(** The world after a process that did [evs] and touched no file. *)
Definition extend (w : world) (evs : list event) : world :=
  {| files := files w; trace := trace w ++ evs |}.

Definition is_chat (e : event) : bool :=
  match e with ChatCompletion _ _ => true | _ => false end.

(** The requests a sequence of events sent to the collaborator. *)
Definition chat_calls (evs : list event) : list event :=
  List.filter is_chat evs.

(** The files a sequence of events wrote, in order. *)
Fixpoint written (evs : list event) : list (str * str) :=
  match evs with
  | [] => []
  | WriteFile p c :: rest => (p, c) :: written rest
  | _ :: rest => written rest
  end.

Definition is_save (e : event) : bool :=
  match e with Mkdir _ | WriteFile _ _ => true | _ => false end.

(** The steps of [save_thinker_essay] / [save_questionnaire] among a
    sequence of events: the directory creation and the write. *)
Definition save_steps (evs : list event) : list event :=
  List.filter is_save evs.

(** The credential a single-item run works with: the argument when it is
    given and not empty, else the environment variable when it is set and
    not empty. *)
Definition resolve_key (E : env) (api_key : option str) : option str :=
  match truthy_value api_key with
  | Some k => Some k
  | None => truthy_value (environ_api_key E)
  end.

(** A credential source is absent: not given, or given empty. *)
Definition absent (v : option str) : Prop := truthy_value v = None.

(** The collaborator gives no usable text: it raises, or what it returns
    strips to the empty string. *)
Definition no_result (o : api_outcome) : Prop :=
  match o with
  | ApiRaises _ => True
  | ApiReturns content => strip content = []
  end.

(** The request [generate_thinker_meaning_essay] sends. *)
Definition essay_request (thinker_name model : str) : request :=
  {| req_model := model; req_system := Meaning.system_content;
     req_user := EssayPrompt thinker_name; req_max_tokens := 1000;
     req_temperature_tenths := 7 |}.

(** The first line [generate_thinker_meaning.py] prints. *)
Definition essay_greeting (a : args) : event :=
  Print (py "Generating essay about " ++ arg_thinker_name a
         ++ py "'s ideas on meaning...").

(** The request [generate_thinker_questionnaire] sends. *)
Definition questionnaire_request (thinker_name thinker_text model : str)
    : request :=
  {| req_model := model; req_system := Questionnaire.system_content;
     req_user := QuestionnairePrompt thinker_name thinker_text;
     req_max_tokens := 2000; req_temperature_tenths := 7 |}.

(** The first line [generate_thinker_questionnaires.py] prints. *)
Definition questionnaire_greeting (a : args) : event :=
  Print (py "Generating questionnaire based on " ++ arg_thinker_name a
         ++ py "'s ideas about meaning...").

Definition loaded (a : args) (thinker_text : str) : event :=
  Print (py "✅ Loaded " ++ arg_thinker_name a ++ py "'s text ("
         ++ str_of_nat (length thinker_text) ++ py " characters)").

(** What the two [except] clauses of the questionnaire [main] print. *)
Definition handler_prints (e : exn) : list event :=
  match e with
  | FileNotFoundError _ =>
    [Print (py "❌ Error: " ++ exn_msg e);
     Print (py "Make sure the thinker's text file exists in ../thinkers_texts/")]
  | _ => [Print (py "❌ Error: " ++ exn_msg e)]
  end.

(** The error [read_thinker_text] raises for a missing essay. *)
Definition essay_not_found (thinker_name : str) : exn :=
  FileNotFoundError
    (py "Thinker text file not found: " ++ meaning_filepath thinker_name).

(** The sentence on the override table read on one display name: the
    round trip gives the name back, and it is the table that recovers it,
    title-casing alone giving something else. *)
Definition recovered_by_override_table (name : str) : Prop :=
  thinker_name_of_file (meaning_filename name) = name
  /\ generic_name (meaning_filename name) <> name.

(** The sentence on missing credentials read on one run of a single-item
    [main]: when the credential is absent from the argument and from the
    environment, the run returns (nothing is thrown further) and has
    printed the missing-credential message. *)
Definition missing_credential_reported (main : env -> args -> M unit)
    (E : env) (a : args) (w : world) : Prop :=
  absent (arg_api_key a) -> absent (environ_api_key E) ->
  exists (evs : list event) (prefix : str),
    main E a w = (Return tt, extend w evs)
    /\ Print (prefix ++ key_not_found) ∈ evs.

(** The sentence on persisting the answer read on one run of the essay
    script: whatever non-empty text the collaborator returns is, after
    the run, the body of the essay file, right after the header. *)
Definition persisted_as_is (E : env) (a : args) (w : world) : Prop :=
  forall (k content : str),
    resolve_key E (arg_api_key a) = Some k ->
    chat_completion E k (essay_request (arg_thinker_name a) (arg_model a))
    = ApiReturns content ->
    content <> [] ->
    files (Meaning.main E a w).2 !! meaning_filepath (arg_thinker_name a)
    = Some (Meaning.header (now E) (arg_thinker_name a) ++ content).

(** *** Batch runs *)

(** The steps of a batch that matter for its schedule: a child process
    started for an item, or a pause. *)
Inductive step :=
| Item (cmd : list str)
| Pause (seconds : nat).

Fixpoint schedule (evs : list event) : list step :=
  match evs with
  | [] => []
  | Subprocess cmd :: rest => Item cmd :: schedule rest
  | Sleep seconds :: rest => Pause seconds :: schedule rest
  | _ :: rest => schedule rest
  end.

Definition is_pause (s : step) : bool :=
  match s with Pause _ => true | Item _ => false end.

(** The command lines of the child processes of a schedule, in order. *)
Fixpoint started (sch : list step) : list (list str) :=
  match sch with
  | [] => []
  | Item cmd :: rest => cmd :: started rest
  | Pause _ :: rest => started rest
  end.

(** The number of pauses of a schedule. *)
Definition pauses (sch : list step) : nat :=
  length (List.filter is_pause sch).

(** [x1; sep; x2; sep; ...; xn]: a separator between each two
    neighbours and nowhere else. *)
Fixpoint intersperse {A} (sep : A) (l : list A) : list A :=
  match l with
  | [] => []
  | x :: rest =>
    match rest with
    | [] => [x]
    | _ :: _ => x :: sep :: intersperse sep rest
    end
  end.

(** The credential a batch run passes on. *)
Definition batch_key (B : Batch.batch_env) : option str :=
  truthy_value (Some (strip (Batch.stdin_line B))).

(** The command line the runner builds for an item. *)
Definition command (B : Batch.batch_env) (script thinker_name : str)
    (api_key : option str) : list str :=
  [Batch.sys_executable B; script; thinker_name]
  ++ match truthy_value api_key with
     | Some k => [py "--api-key"; k]
     | None => []
     end.

(** What the runner prints before it starts the child. *)
Definition banner (noun thinker_name : str) : list event :=
  [Print (nl ++ repeat_char 61 60);
   Print (py "Generating " ++ noun ++ py " for: " ++ thinker_name);
   Print (repeat_char 61 60)].

(** What the runner prints once the child is done. *)
Definition verdict_prints (noun thinker_name : str) (o : sub_outcome)
    : list event :=
  match o with
  | SpawnRaises e =>
    [Print (py "❌ Error processing " ++ thinker_name ++ py ": "
            ++ exn_msg e)]
  | Completed returncode stdout stderr =>
    if (returncode =? 0)%Z then
      Print (py "✅ Successfully generated " ++ noun ++ py " for "
             ++ thinker_name)
      :: (if str_truthy stdout then [Print stdout] else [])
    else
      Print (py "❌ Failed to generate " ++ noun ++ py " for "
             ++ thinker_name)
      :: (if str_truthy stderr then [Print (py "Error: " ++ stderr)] else [])
  end.

Definition is_print (e : event) : bool :=
  match e with Print _ => true | _ => false end.

(** The lines of the final report that carry the tally. *)
Definition tally_prints (title_line : str) (successful failed total : nat)
    : list event :=
  [Print (nl ++ repeat_char 61 60);
   Print title_line;
   Print (repeat_char 61 60);
   Print (py "✅ Successful: " ++ str_of_nat successful);
   Print (py "❌ Failed: " ++ str_of_nat failed);
   Print (py "📊 Total processed: " ++ str_of_nat total)].

(** The runner's verdict on a child process. *)
Definition child_ok (o : sub_outcome) : bool :=
  match o with
  | Completed returncode _ _ => (returncode =? 0)%Z
  | SpawnRaises _ => false
  end.

Definition count_true (l : list bool) : nat :=
  length (List.filter (fun b => b) l).

Definition count_false (l : list bool) : nat :=
  length (List.filter negb l).

(** The command line of the essay batch for a thinker. *)
Definition essay_command (B : Batch.batch_env) (thinker_name : str)
    : list str :=
  command B (py "generate_thinker_meaning.py") thinker_name (batch_key B).

(** The command line of the questionnaire batch for a thinker. *)
Definition questionnaire_command (B : Batch.batch_env) (thinker_name : str)
    : list str :=
  command B (py "generate_thinker_questionnaires.py") thinker_name
    (batch_key B).

(** The work list of the questionnaire batch started in world [w]. *)
Definition scanned_thinkers (B : Batch.batch_env) (w : world) : list str :=
  get_available_thinkers (Batch.listdir B (trace w) thinkers_dir).

Definition essay_title : str :=
  Eval vm_compute in py "🎉 BATCH PROCESSING COMPLETE".

Definition questionnaire_title : str :=
  Eval vm_compute in
  py "🎉 BATCH QUESTIONNAIRE GENERATION COMPLETE".

(** What the questionnaire batch prints when it finds no essay. *)
Definition nothing_to_do : list event :=
  [Print (py "❌ No thinker text files found in ../thinkers_texts/");
   Print (py "Please run the batch_generate_thinkers.py script first to create thinker essays.")].

End Obs.

Import Obs.

Arguments py : simpl never.
Arguments strip : simpl never.
Arguments str_of_nat : simpl never.
Arguments repeat_char : simpl never.
Arguments path_join : simpl never.
Arguments meaning_filename : simpl never.
Arguments questionnaire_filename : simpl never.
Arguments join : simpl never.

(** * Sample inputs *)

Module Samples.

(** A directory of three essays and a stray file, and a second
    enumeration of the same directory. *)
Definition essays_dir : list str :=
  [py "viktor_frankl_meaning.txt"; py "notes.txt";
   py "søren_kierkegaard_meaning.txt"; py "albert_camus_meaning.txt"].

Definition essays_dir' : list str :=
  [py "albert_camus_meaning.txt"; py "søren_kierkegaard_meaning.txt";
   py "notes.txt"; py "viktor_frankl_meaning.txt"].

(** A batch environment: the user presses Enter, every second child
    fails, the essay directory is [essays_dir]. *)
Definition batch_sample : Batch.batch_env :=
  {| Batch.sys_executable := py "/usr/bin/python3";
     Batch.stdin_line := nl;
     Batch.subprocess_run := fun h cmd =>
       if Nat.even (length h) then Completed 0 (py "ok") []
       else Completed 1 [] (py "Traceback");
     Batch.listdir := fun _ _ => Some essays_dir |}.

Definition empty_world : world := {| files := ∅; trace := [] |}.

Definition camus : str :=
  Eval vm_compute in py "Albert Camus".

(** The command line [generate_thinker_*.py "Albert Camus"], nothing
    else. *)
Definition camus_args : args :=
  {| arg_thinker_name := camus; arg_api_key := None;
     arg_model := py "gpt-4" |}.

(** A world that holds the essay on Camus. *)
Definition camus_world : world :=
  {| files := {[ meaning_filepath camus := py "Camus held that life is absurd." ]};
     trace := [] |}.

(** No credential in the environment; the collaborator would answer. *)
Definition env_no_key : env :=
  {| environ_api_key := None;
     now := py "2024-05-01 12:00:00";
     chat_completion := fun _ _ => ApiReturns (py "One must imagine Sisyphus happy.");
     open_for_write := fun _ => None |}.

(** A credential in the environment; the collaborator raises. *)
Definition env_api_down : env :=
  {| environ_api_key := Some (py "sk-test");
     now := py "2024-05-01 12:00:00";
     chat_completion := fun _ _ => ApiRaises (OtherError (py "Connection error."));
     open_for_write := fun _ => None |}.

(** A credential in the environment; the collaborator answers with text
    that has white space around it. *)
Definition padded_answer : str :=
  Eval vm_compute in nl ++ py "  One must imagine Sisyphus happy." ++ nl.

Definition env_padded : env :=
  {| environ_api_key := Some (py "sk-test");
     now := py "2024-05-01 12:00:00";
     chat_completion := fun _ _ => ApiReturns padded_answer;
     open_for_write := fun _ => None |}.

(** A credential in the environment; the collaborator answers with
    white space only. *)
Definition env_blank : env :=
  {| environ_api_key := Some (py "sk-test");
     now := py "2024-05-01 12:00:00";
     chat_completion := fun _ _ => ApiReturns (py "   ");
     open_for_write := fun _ => None |}.

End Samples.

(** * Further vocabulary *)

Module ObsMore.

(** The text an essay run persists: the stripped answer of the
    collaborator when a credential is at hand, the answer does not strip
    to nothing and the output file can be opened; [None] otherwise. *)
Definition essay_answer (E : env) (a : args) : option str :=
  match resolve_key E (arg_api_key a) with
  | None => None
  | Some k =>
    match chat_completion E k
            (essay_request (arg_thinker_name a) (arg_model a)) with
    | ApiRaises _ => None
    | ApiReturns content =>
      if str_truthy (strip content) then
        match open_for_write E (meaning_filepath (arg_thinker_name a)) with
        | Some _ => None
        | None => Some (strip content)
        end
      else None
    end
  end.

(** The requests an essay run sends: one when a credential is at hand,
    none otherwise. *)
Definition essay_calls (E : env) (a : args) : list event :=
  match resolve_key E (arg_api_key a) with
  | Some k =>
    [ChatCompletion k (essay_request (arg_thinker_name a) (arg_model a))]
  | None => []
  end.

(** The requests a questionnaire run sends in world [w]: one when the
    essay exists and a credential is at hand, none otherwise. *)
Definition questionnaire_calls (E : env) (a : args) (w : world)
    : list event :=
  match files w !! meaning_filepath (arg_thinker_name a) with
  | Some thinker_text =>
    match resolve_key E (arg_api_key a) with
    | Some k =>
      [ChatCompletion k
         (questionnaire_request (arg_thinker_name a) thinker_text
            (arg_model a))]
    | None => []
    end
  | None => []
  end.

(** The events of a run that started in [w] and ended in [w']. *)
Definition new_events (w w' : world) : list event :=
  drop (length (trace w)) (trace w').

(** No carriage return: text that reading in text mode gives back as it
    was written. *)
Definition no_carriage_return (s : str) : bool :=
  forallb (fun c => negb (c =? 13)%N) s.

(** All code points in Basic Latin or Latin-1 Supplement, where the case
    tables of this development are the ones of Python. *)
Definition latin1 (s : str) : bool :=
  forallb (fun c => (c <? 256)%N) s.

(** A Latin-1 name that can be part of a file name as it is: no path
    separator and no NUL. *)
Definition plain_name (s : str) : bool :=
  forallb (fun c => (c <? 256)%N && negb (c =? 47)%N && negb (c =? 0)%N) s.

(** The character map of [s.replace(' ', '_')]. *)
Definition underscore (c : N) : N := if (c =? 32)%N then 95%N else c.

Definition is_input (e : event) : bool :=
  match e with Input _ => true | _ => false end.

(** A sequence of events in which the user is not asked for anything. *)
Definition prompt_free (evs : list event) : Prop :=
  Forall (fun e => is_input e = false) evs.

(** The question a batch run asks at its start. *)
Definition key_prompt : event :=
  Input (py "Enter your OpenAI API key (or press Enter if set as environment variable): ").

(** The essay files the questionnaire batch finds when started in [w]. *)
Definition matching_essays (B : Batch.batch_env) (w : world) : list str :=
  match Batch.listdir B (trace w) thinkers_dir with
  | Some entries => glob_meaning entries
  | None => []
  end.


(** The lines of the final report after the tally, when at least one item
    succeeded: the heading and one line per matching file of the output
    directory, if it exists. *)
Definition listing_prints (saved_line suffix : str)
    (dir : option (list str)) : list event :=
  Print saved_line :: Print (py "Files created:")
  :: match dir with
     | Some entries =>
       (fun name => Print (py "  - " ++ name)) <$> glob_suffix suffix entries
     | None => []
     end.

End ObsMore.

Import ObsMore.

Module MoreSamples.

(** A credential in the environment, the collaborator answers, but the
    output files cannot be opened for writing. *)
Definition env_read_only : env :=
  {| environ_api_key := Some (py "sk-test");
     now := py "2024-05-01 12:00:00";
     chat_completion := fun _ _ =>
       ApiReturns (py "One must imagine Sisyphus happy.");
     open_for_write := fun _ =>
       Some (OtherError (py "[Errno 13] Permission denied")) |}.

(** A later run: another time stamp, another answer. *)
Definition env_later : env :=
  {| environ_api_key := Some (py "sk-test");
     now := py "2024-06-01 09:30:00";
     chat_completion := fun _ _ => ApiReturns (py "The absurd is born of a confrontation.");
     open_for_write := fun _ => None |}.

(** The user types a key with blanks around it. *)
Definition batch_with_key : Batch.batch_env :=
  {| Batch.sys_executable := py "/usr/bin/python3";
     Batch.stdin_line := py "  sk-typed ";
     Batch.subprocess_run := fun h cmd => Completed 0 (py "ok") [];
     Batch.listdir := fun _ _ => None |}.

End MoreSamples.

(** * Properties *)

(** ** The order on strings *)

Section StrOrder.

Lemma str_leb_refl (a : str) : str_leb a a = true.
Proof.
  induction a as [|x a IH]; simpl; [done|].
  by rewrite N.ltb_irrefl.
Qed.

Lemma str_leb_total (a b : str) : str_leb a b = true ∨ str_leb b a = true.
Proof.
  revert b; induction a as [|x a IH]; intros [|y b]; simpl; auto.
  destruct (N.ltb_spec x y), (N.ltb_spec y x); auto; lia.
Qed.

Lemma str_leb_antisym (a b : str) :
  str_leb a b = true → str_leb b a = true → a = b.
Proof.
  revert b; induction a as [|x a IH]; intros [|y b]; simpl; try done.
  destruct (N.ltb_spec x y), (N.ltb_spec y x); try done; try lia.
  intros Hab Hba. assert (x = y) as -> by lia. f_equal; auto.
Qed.

Lemma str_leb_trans (a b c : str) :
  str_leb a b = true → str_leb b c = true → str_leb a c = true.
Proof.
  revert b c; induction a as [|x a IH]; intros [|y b] [|z c]; simpl;
    try done.
  destruct (N.ltb_spec x y), (N.ltb_spec y x), (N.ltb_spec y z),
    (N.ltb_spec z y), (N.ltb_spec x z), (N.ltb_spec z x);
    try done; try lia; eauto.
Qed.

#[global] Instance str_le_total : Total str_le.
Proof. intros a b. apply str_leb_total. Qed.

#[global] Instance str_le_trans : Transitive str_le.
Proof. intros a b c. apply str_leb_trans. Qed.

#[global] Instance str_le_antisym : AntiSymm (=) str_le.
Proof. intros a b. apply str_leb_antisym. Qed.

#[global] Instance str_le_refl : Reflexive str_le.
Proof. intros a. apply str_leb_refl. Qed.

(** [sorted l] is in ascending order and rearranges [l]. *)
Lemma sorted_Sorted (l : list str) : Sorted str_le (sorted l).
Proof. apply Sorted_merge_sort, _. Qed.

Lemma sorted_Permutation (l : list str) : sorted l ≡ₚ l.
Proof. apply merge_sort_Permutation. Qed.

(** Any ascending rearrangement of [l] is [sorted l]: whatever algorithm
    the sort uses, its result is this list. *)
Lemma sorted_characterised (l l' : list str) :
  Sorted str_le l' → l' ≡ₚ l → l' = sorted l.
Proof.
  intros Hs Hp. apply (Sorted_unique str_le); [done|apply sorted_Sorted|].
  by rewrite Hp, sorted_Permutation.
Qed.

Lemma sorted_perm_invariant (l1 l2 : list str) :
  l1 ≡ₚ l2 → sorted l1 = sorted l2.
Proof.
  intros Hp. apply sorted_characterised; [apply sorted_Sorted|].
  by rewrite sorted_Permutation.
Qed.

End StrOrder.

Lemma List_filter_Permutation {A} (f : A → bool) (l1 l2 : list A) :
  l1 ≡ₚ l2 → List.filter f l1 ≡ₚ List.filter f l2.
Proof.
  induction 1 as [|x l1 l2 _ IH|x y l|l1 l2 l3 _ IH1 _ IH2]; cbn.
  - done.
  - destruct (f x); by rewrite IH.
  - destruct (f x), (f y); try done. apply perm_swap.
  - by rewrite IH1.
Qed.

(** ** The single-item scripts, by cases *)

Lemma setup_openai_client_spec (E : env) (api_key : option str) (w : world) :
  setup_openai_client E api_key w =
  match resolve_key E api_key with
  | Some k => (Return k, w)
  | None => (Raise (ValueError key_not_found), w)
  end.
Proof.
  unfold setup_openai_client, resolve_key.
  destruct (truthy_value api_key); [done|].
  by destruct (truthy_value (environ_api_key E)).
Qed.

Lemma resolve_key_None (E : env) (api_key : option str) :
  resolve_key E api_key = None ↔ absent api_key ∧ absent (environ_api_key E).
Proof.
  unfold resolve_key, absent.
  destruct (truthy_value api_key); intuition congruence.
Qed.

Lemma truthy_value_strip (content : str) :
  truthy_value (Some (strip content)) =
  if str_truthy (strip content) then Some (strip content) else None.
Proof. done. Qed.

(** Running the monad: unfold the plumbing and flatten the trace. *)
Ltac run_monad :=
  unfold mbind, M_bind, mret, M_ret, print, emit, raise, try_except,
    lookup_file, write_file, history, extend; cbn.

Ltac flatten_trace :=
  unfold extend; cbn [files trace]; rewrite <- ?app_assoc; cbn [app].

Module MeaningFacts.
Import Meaning.

(** What [generate_thinker_meaning_essay] does, by cases on the oracles. *)
Lemma essay_generate_spec (E : env) (name : str) (key : option str) (model : str)
    (w : world) :
  generate_thinker_meaning_essay E name key model w =
  match resolve_key E key with
  | None => (Raise (ValueError key_not_found), w)
  | Some k =>
    let req := essay_request name model in
    match chat_completion E k req with
    | ApiRaises e =>
      (Return None,
       extend w [ChatCompletion k req;
                 Print (py "Error generating essay: " ++ exn_msg e)])
    | ApiReturns content =>
      (Return (Some (strip content)), extend w [ChatCompletion k req])
    end
  end.
Proof.
  unfold generate_thinker_meaning_essay. run_monad.
  rewrite setup_openai_client_spec.
  destruct (resolve_key E key) as [k|]; [|done].
  fold (essay_request name model).
  destruct (chat_completion E k (essay_request name model)); [|done].
  by flatten_trace.
Qed.

(** What [save_thinker_essay] does. *)
Lemma essay_save_spec (E : env) (name text : str) (w : world) :
  save_thinker_essay E name text w =
  let path := meaning_filepath name in
  match open_for_write E path with
  | Some e => (Raise e, extend w [Mkdir thinkers_dir])
  | None =>
    (Return path,
     {| files := <[path := header (now E) name ++ text]> (files w);
        trace := trace w ++
          [Mkdir thinkers_dir;
           WriteFile path (header (now E) name ++ text);
           Print (py "Essay saved to: " ++ path)] |})
  end.
Proof.
  unfold save_thinker_essay, meaning_filepath. run_monad.
  destruct (open_for_write E _); [done|]. by flatten_trace.
Qed.

(** What [main] does, by cases on the oracles. *)
Lemma essay_main_spec (E : env) (a : args) (w : world) :
  main E a w =
  let name := arg_thinker_name a in
  match resolve_key E (arg_api_key a) with
  | None => (Raise (ValueError key_not_found), extend w [essay_greeting a])
  | Some k =>
    let req := essay_request name (arg_model a) in
    match chat_completion E k req with
    | ApiRaises e =>
      (Return tt,
       extend w [essay_greeting a; ChatCompletion k req;
                 Print (py "Error generating essay: " ++ exn_msg e);
                 Print (py "Failed to generate essay.")])
    | ApiReturns content =>
      if str_truthy (strip content) then
        let path := meaning_filepath name in
        let text := header (now E) name ++ strip content in
        match open_for_write E path with
        | Some e =>
          (Raise e,
           extend w [essay_greeting a; ChatCompletion k req; Mkdir thinkers_dir])
        | None =>
          (Return tt,
           {| files := <[path := text]> (files w);
              trace := trace w ++
                [essay_greeting a; ChatCompletion k req; Mkdir thinkers_dir;
                 WriteFile path text;
                 Print (py "Essay saved to: " ++ path);
                 Print (nl ++ py "Essay generated successfully!");
                 Print (py "File saved: " ++ path)] |})
        end
      else
        (Return tt,
         extend w [essay_greeting a; ChatCompletion k req;
                   Print (py "Failed to generate essay.")])
    end
  end.
Proof.
  unfold main. unfold mbind at 1 2. unfold M_bind at 1 2.
  unfold print at 1, emit at 1. cbv beta iota.
  rewrite essay_generate_spec. fold (essay_greeting a). cbv zeta.
  destruct (resolve_key E (arg_api_key a)) as [k|]; [|done].
  destruct (chat_completion E k _) as [e|content].
  { run_monad. by flatten_trace. }
  rewrite truthy_value_strip.
  destruct (str_truthy (strip content)).
  - unfold mbind at 1, M_bind at 1. rewrite essay_save_spec. cbv zeta.
    destruct (open_for_write E _).
    + by flatten_trace.
    + run_monad. by flatten_trace.
  - run_monad. by flatten_trace.
Qed.

End MeaningFacts.

Module QuestionnaireFacts.
Import Questionnaire.

Lemma read_thinker_text_spec (name : str) (w : world) :
  read_thinker_text name w =
  match files w !! meaning_filepath name with
  | None =>
    (Raise (essay_not_found name), w)
  | Some text => (Return text, w)
  end.
Proof.
  unfold read_thinker_text, meaning_filepath. run_monad.
  by destruct (files w !! _).
Qed.

Lemma questionnaire_generate_spec (E : env) (name text : str) (key : option str)
    (model : str) (w : world) :
  generate_thinker_questionnaire E name text key model w =
  match resolve_key E key with
  | None => (Raise (ValueError key_not_found), w)
  | Some k =>
    let req := questionnaire_request name text model in
    match chat_completion E k req with
    | ApiRaises e =>
      (Return None,
       extend w [ChatCompletion k req;
                 Print (py "Error generating questionnaire: " ++ exn_msg e)])
    | ApiReturns content =>
      (Return (Some (strip content)), extend w [ChatCompletion k req])
    end
  end.
Proof.
  unfold generate_thinker_questionnaire. run_monad.
  rewrite setup_openai_client_spec.
  destruct (resolve_key E key) as [k|]; [|done].
  fold (questionnaire_request name text model).
  destruct (chat_completion E k _); [|done].
  by flatten_trace.
Qed.

Lemma questionnaire_save_spec (E : env) (name text : str) (w : world) :
  save_questionnaire E name text w =
  let path := questionnaire_filepath name in
  match open_for_write E path with
  | Some e => (Raise e, extend w [Mkdir questionnaires_dir])
  | None =>
    (Return path,
     {| files := <[path := header (now E) name ++ text]> (files w);
        trace := trace w ++
          [Mkdir questionnaires_dir;
           WriteFile path (header (now E) name ++ text);
           Print (py "Questionnaire saved to: " ++ path)] |})
  end.
Proof.
  unfold save_questionnaire, questionnaire_filepath. run_monad.
  destruct (open_for_write E _); [done|]. by flatten_trace.
Qed.

(** What [main] does, by cases on the world and the oracles. *)
Lemma questionnaire_main_spec (E : env) (a : args) (w : world) :
  main E a w =
  let name := arg_thinker_name a in
  match files w !! meaning_filepath name with
  | None =>
    (Return tt,
     extend w
       (questionnaire_greeting a :: handler_prints (essay_not_found name)))
  | Some thinker_text =>
    match resolve_key E (arg_api_key a) with
    | None =>
      (Return tt,
       extend w (questionnaire_greeting a :: loaded a thinker_text
                 :: handler_prints (ValueError key_not_found)))
    | Some k =>
      let req := questionnaire_request name thinker_text (arg_model a) in
      match chat_completion E k req with
      | ApiRaises e =>
        (Return tt,
         extend w
           [questionnaire_greeting a; loaded a thinker_text; ChatCompletion k req;
            Print (py "Error generating questionnaire: " ++ exn_msg e);
            Print (py "❌ Failed to generate questionnaire.")])
      | ApiReturns content =>
        if str_truthy (strip content) then
          let path := questionnaire_filepath name in
          let text := header (now E) name ++ strip content in
          match open_for_write E path with
          | Some e =>
            (Return tt,
             extend w
               (questionnaire_greeting a :: loaded a thinker_text :: ChatCompletion k req
                :: Mkdir questionnaires_dir :: handler_prints e))
          | None =>
            (Return tt,
             {| files := <[path := text]> (files w);
                trace := trace w ++
                  [questionnaire_greeting a; loaded a thinker_text; ChatCompletion k req;
                   Mkdir questionnaires_dir; WriteFile path text;
                   Print (py "Questionnaire saved to: " ++ path);
                   Print (nl ++ py "✅ Questionnaire generated successfully!");
                   Print (py "📁 File saved: " ++ path)] |})
          end
        else
          (Return tt,
           extend w
             [questionnaire_greeting a; loaded a thinker_text; ChatCompletion k req;
              Print (py "❌ Failed to generate questionnaire.")])
      end
    end
  end.
Proof.
  unfold main. unfold mbind at 1. unfold M_bind at 1.
  unfold print at 1, emit at 1. cbv beta iota.
  fold (questionnaire_greeting a). unfold try_except.
  unfold mbind at 1. unfold M_bind at 1. rewrite read_thinker_text_spec. cbv zeta.
  cbn [files].
  destruct (files w !! meaning_filepath (arg_thinker_name a))
    as [thinker_text|]; [|run_monad; by flatten_trace].
  unfold mbind at 1 2. unfold M_bind at 1 2.
  unfold print at 1, emit at 1. cbv beta iota. fold (loaded a thinker_text).
  rewrite questionnaire_generate_spec. cbv zeta.
  destruct (resolve_key E (arg_api_key a)) as [k|];
    [|run_monad; by flatten_trace].
  destruct (chat_completion E k _) as [e|content].
  { run_monad. by flatten_trace. }
  rewrite truthy_value_strip.
  destruct (str_truthy (strip content)).
  - unfold mbind at 1, M_bind at 1. rewrite questionnaire_save_spec. cbv zeta.
    destruct (open_for_write E _) as [e|].
    + destruct e; run_monad; by flatten_trace.
    + run_monad. by flatten_trace.
  - run_monad. by flatten_trace.
Qed.

End QuestionnaireFacts.

(** ** The batch orchestrators, step by step *)

Module BatchFacts.
Import Batch.

Lemma extend_extend (w : world) (evs1 evs2 : list event) :
  extend (extend w evs1) evs2 = extend w (evs1 ++ evs2).
Proof. unfold extend; cbn. by rewrite app_assoc. Qed.

Lemma extend_nil (w : world) : extend w [] = w.
Proof. destruct w. unfold extend; cbn. by rewrite app_nil_r. Qed.

Lemma schedule_app (evs1 evs2 : list event) :
  schedule (evs1 ++ evs2) = schedule evs1 ++ schedule evs2.
Proof.
  induction evs1 as [|e evs1 IH]; [done|].
  destruct e; cbn; by rewrite ?IH.
Qed.

Lemma schedule_prints (evs : list event) :
  Forall (fun e => is_print e = true) evs → schedule evs = [].
Proof.
  induction 1 as [|e evs He _ IH]; [done|]. by destruct e.
Qed.

Lemma written_app (evs1 evs2 : list event) :
  written (evs1 ++ evs2) = written evs1 ++ written evs2.
Proof.
  induction evs1 as [|e evs1 IH]; [done|].
  destruct e; cbn; by rewrite ?IH.
Qed.

Lemma verdict_prints_print (noun name : str) (o : sub_outcome) :
  Forall (fun e => is_print e = true) (verdict_prints noun name o).
Proof.
  destruct o as [rc out err|e]; cbn; [|by repeat constructor].
  destruct (rc =? 0)%Z; [destruct (str_truthy out)|destruct (str_truthy err)];
    by repeat constructor.
Qed.

(** What the runner does: it always returns, with the child's verdict. *)
Lemma run_generation_spec (B : batch_env) (script noun name : str)
    (key : option str) (w : world) :
  run_generation B script noun name key w =
  let cmd := command B script name key in
  let o := subprocess_run B (trace w ++ banner noun name) cmd in
  (Return (child_ok o),
   extend w (banner noun name ++ Subprocess cmd :: verdict_prints noun name o)).
Proof.
  unfold run_generation, command, banner.
  destruct (truthy_value key) as [k|]; run_monad; flatten_trace.
  all: match goal with |- context [subprocess_run _ ?h ?c] =>
         destruct (subprocess_run B h c) as [rc out err|e] end; cbn.
  all: try (destruct (rc =? 0)%Z; cbn;
            [destruct (str_truthy out)|destruct (str_truthy err)]; cbn).
  all: by flatten_trace.
Qed.

Lemma schedule_run_events (noun name : str) (cmd : list str)
    (o : sub_outcome) :
  schedule (banner noun name ++ Subprocess cmd :: verdict_prints noun name o)
  = [Item cmd].
Proof.
  cbn. by rewrite (schedule_prints _ (verdict_prints_print noun name o)).
Qed.

Lemma count_true_cons (b : bool) (l : list bool) :
  count_true (b :: l) = (if b then 1 else 0) + count_true l.
Proof. by destruct b. Qed.

Lemma count_false_cons (b : bool) (l : list bool) :
  count_false (b :: l) = (if b then 0 else 1) + count_false l.
Proof. by destruct b. Qed.

Lemma count_true_false (l : list bool) :
  count_true l + count_false l = length l.
Proof.
  induction l as [|b l IH]; [done|].
  rewrite count_true_cons, count_false_cons. destruct b; cbn; lia.
Qed.

Section Loop.

Variable B : batch_env.
Variables script noun : str.
Variable key : option str.
Variable seconds : nat.

Let run (thinker : str) : M bool := run_generation B script noun thinker key.
Let item (thinker : str) : step := Item (command B script thinker key).

(** One turn of the loop: the head item is handed to the runner, exactly
    one of the two counters grows by one, and the loop goes on with the
    rest of the list whatever the verdict. *)
Lemma for_each_turn (n i : nat) (thinker : str) (rest : list str)
    (successful failed : nat) (w : world) :
  ∃ (ok : bool) (evs : list event),
    for_each run seconds n i (thinker :: rest) successful failed w =
    for_each run seconds n (i + 1) rest
      (if ok then successful + 1 else successful)
      (if ok then failed else failed + 1)
      (extend w evs)
    ∧ schedule evs =
      item thinker :: (if i <? n then [Pause seconds] else []).
Proof.
  cbn [for_each]. unfold mbind at 1 2. unfold M_bind at 1 2.
  unfold print at 1, emit at 1. cbv beta iota.
  unfold run at 1. rewrite run_generation_spec. cbv zeta.
  set (w1 := {| files := _; trace := _ |}).
  set (o := subprocess_run B _ _).
  exists (child_ok o).
  destruct (i <? n) eqn:Hi.
  - eexists. split.
    + run_monad. unfold w1. flatten_trace. reflexivity.
    + cbn. rewrite schedule_app. cbn.
      by rewrite (schedule_prints _ (verdict_prints_print _ _ _)).
  - eexists. split.
    + run_monad. unfold w1. flatten_trace. reflexivity.
    + cbn. rewrite (schedule_prints _ (verdict_prints_print _ _ _)). done.
Qed.

(** The whole loop over the items still to do, [i] being the number of
    the first of them. *)
Lemma for_each_spec (n : nat) (items : list str) :
  ∀ (i successful failed : nat) (w : world),
    i + length items = n + 1 →
    ∃ (oks : list bool) (evs : list event),
      for_each run seconds n i items successful failed w =
      (Return (successful + count_true oks, failed + count_false oks),
       extend w evs)
      ∧ length oks = length items
      ∧ schedule evs = intersperse (Pause seconds) (item <$> items).
Proof.
  induction items as [|thinker rest IH]; intros i s f w Hi.
  - exists [], []. rewrite extend_nil. cbn.
    by rewrite !Nat.add_0_r.
  - destruct (for_each_turn n i thinker rest s f w) as (ok & evs & -> & Hs).
    cbn in Hi.
    destruct (IH (i + 1) (if ok then s + 1 else s)
                 (if ok then f else f + 1) (extend w evs))
      as (oks & evs' & -> & Hlen & Hs'); [lia|].
    exists (ok :: oks), (evs ++ evs'). rewrite extend_extend.
    rewrite count_true_cons, count_false_cons. split; [|split].
    + f_equal. f_equal. f_equal; destruct ok; lia.
    + cbn. by rewrite Hlen.
    + rewrite schedule_app, Hs, Hs'.
      destruct rest as [|t rest']; cbn in Hi.
      * assert ((i <? n) = false) as -> by (apply Nat.ltb_ge; lia). done.
      * assert ((i <? n) = true) as -> by (apply Nat.ltb_lt; lia). done.
Qed.

Lemma process_all_spec (thinkers : list str) (w : world) :
  ∃ (oks : list bool) (evs : list event),
    process_all run seconds thinkers w =
    (Return (count_true oks, count_false oks), extend w evs)
    ∧ length oks = length thinkers
    ∧ schedule evs = intersperse (Pause seconds) (item <$> thinkers).
Proof.
  unfold process_all.
  destruct (for_each_spec (length thinkers) thinkers 1 0 0 w)
    as (oks & evs & Hrun & Hlen & Hs); [lia|].
  exists oks, evs. by rewrite Hrun.
Qed.

End Loop.

End BatchFacts.

Module BatchMainFacts.
Import Batch BatchFacts.

Lemma print_each_spec (prefix : str) (names : list str) (w : world) :
  print_each prefix names w =
  (Return tt, extend w ((fun name => Print (prefix ++ name)) <$> names)).
Proof.
  revert w; induction names as [|name rest IH]; intros w.
  - by rewrite extend_nil.
  - cbn [print_each]. unfold mbind, M_bind, print at 1, emit. cbv beta iota.
    rewrite IH. by flatten_trace.
Qed.

Lemma fmap_prints (prefix : str) (names : list str) :
  Forall (fun e => is_print e = true)
    ((fun name => Print (prefix ++ name)) <$> names).
Proof. induction names; by constructor. Qed.

(** The report: the tally lines, then at most further printed lines. *)
Lemma summary_spec (B : batch_env) (title_line saved_line dir suffix : str)
    (successful failed total : nat) (w : world) :
  ∃ more : list event,
    summary B title_line saved_line dir suffix successful failed total w =
    (Return tt,
     extend w (tally_prints title_line successful failed total ++ more))
    ∧ Forall (fun e => is_print e = true) more.
Proof.
  unfold summary, tally_prints.
  destruct successful as [|s].
  - run_monad. exists []. split; [|constructor]. by flatten_trace.
  - run_monad.
    match goal with |- context [listdir _ ?h ?d] =>
      destruct (listdir B h d) as [entries|] end.
    + rewrite print_each_spec. eexists. split.
      * flatten_trace. reflexivity.
      * repeat constructor. apply fmap_prints.
    + eexists. split; [flatten_trace; reflexivity|]. by repeat constructor.
Qed.

Section RunBatch.

Variable B : batch_env.

Lemma thinkers_run_batch_spec (thinkers : list str) (w : world) :
  ∃ (oks : list bool) (evs : list event),
    BatchThinkers.run_batch B thinkers w =
    (Return (count_true oks, count_false oks), extend w evs)
    ∧ length oks = length thinkers
    ∧ schedule evs =
      intersperse (Pause BatchThinkers.pause_seconds)
        (Item <$> (essay_command B <$> thinkers)).
Proof.
  unfold BatchThinkers.run_batch, ask_api_key.
  unfold mbind at 1 2 3 4. unfold M_bind at 1 2 3 4.
  unfold print, emit, mret, M_ret. cbv beta iota. fold (batch_key B).
  unfold BatchThinkers.run_thinker_generation.
  set (w1 := {| files := _; trace := _ |}).
  destruct (process_all_spec B (py "generate_thinker_meaning.py") (py "essay")
              (batch_key B) BatchThinkers.pause_seconds thinkers w1)
    as (oks & evs & -> & Hlen & Hs).
  exists oks. eexists. split; [|split; [done|]].
  - unfold w1. flatten_trace. reflexivity.
  - by rewrite <- list_fmap_compose.
Qed.

Lemma questionnaires_run_batch_spec (thinkers : list str) (w : world) :
  ∃ (oks : list bool) (evs : list event),
    BatchQuestionnaires.run_batch B thinkers w =
    (Return (count_true oks, count_false oks), extend w evs)
    ∧ length oks = length thinkers
    ∧ schedule evs =
      intersperse (Pause BatchQuestionnaires.pause_seconds)
        (Item <$> (questionnaire_command B <$> thinkers)).
Proof.
  unfold BatchQuestionnaires.run_batch, ask_api_key.
  unfold mbind at 1 2 3 4. unfold M_bind at 1 2 3 4.
  unfold print, emit, mret, M_ret. cbv beta iota. fold (batch_key B).
  unfold BatchQuestionnaires.run_questionnaire_generation.
  set (w1 := {| files := _; trace := _ |}).
  destruct (process_all_spec B (py "generate_thinker_questionnaires.py")
              (py "questionnaire") (batch_key B)
              BatchQuestionnaires.pause_seconds thinkers w1)
    as (oks & evs & -> & Hlen & Hs).
  exists oks. eexists. split; [|split; [done|]].
  - unfold w1. flatten_trace. reflexivity.
  - by rewrite <- list_fmap_compose.
Qed.

(** A schedule of items with a pause between neighbours. *)
Lemma started_intersperse (seconds : nat) (cmds : list (list str)) :
  started (intersperse (Pause seconds) (Item <$> cmds)) = cmds.
Proof.
  induction cmds as [|c [|c' rest] IH]; [done..|].
  cbn in *. by rewrite IH.
Qed.

Lemma pauses_intersperse (seconds : nat) (cmds : list (list str)) :
  pauses (intersperse (Pause seconds) (Item <$> cmds)) = length cmds - 1.
Proof.
  unfold pauses.
  induction cmds as [|c [|c' rest] IH]; [done..|].
  cbn in *. rewrite IH. lia.
Qed.

Lemma last_intersperse (seconds : nat) (cmds : list (list str)) :
  last (intersperse (Pause seconds) (Item <$> cmds)) = Item <$> last cmds.
Proof.
  induction cmds as [|c cmds IH]; [done|].
  destruct cmds as [|c' rest]; [done|].
  change (last (Item c :: Pause seconds
                :: intersperse (Pause seconds) (Item <$> c' :: rest))
          = Item <$> last (c' :: rest)).
  rewrite <- IH. by destruct rest.
Qed.

Lemma thinkers_main_spec (w : world) :
  ∃ (oks : list bool) (evs more : list event),
    BatchThinkers.main B w =
    (Return tt,
     extend w (evs ++ tally_prints essay_title (count_true oks)
                        (count_false oks) (length BatchThinkers.thinkers)
                   ++ more))
    ∧ length oks = length BatchThinkers.thinkers
    ∧ schedule evs =
      intersperse (Pause BatchThinkers.pause_seconds)
        (Item <$> (essay_command B <$> BatchThinkers.thinkers))
    ∧ Forall (fun e => is_print e = true) more.
Proof.
  unfold BatchThinkers.main. unfold mbind at 1, M_bind at 1.
  destruct (thinkers_run_batch_spec BatchThinkers.thinkers w)
    as (oks & evs & -> & Hlen & Hs).
  match goal with |- context [summary B ?t ?s ?d ?x ?a ?b ?c ?w'] =>
    destruct (summary_spec B t s d x a b c w') as (more & -> & Hm) end.
  exists oks, evs, more. rewrite extend_extend.
    split; [unfold essay_title; reflexivity|]. split; [exact Hlen|]. split; [exact Hs|exact Hm].
Qed.

Lemma questionnaires_main_spec (w : world) :
  match scanned_thinkers B w with
  | [] => BatchQuestionnaires.main B w = (Return tt, extend w nothing_to_do)
  | _ :: _ =>
    ∃ (oks : list bool) (evs more : list event),
      BatchQuestionnaires.main B w =
      (Return tt,
       extend w (evs ++ tally_prints questionnaire_title (count_true oks)
                          (count_false oks) (length (scanned_thinkers B w))
                     ++ more))
      ∧ length oks = length (scanned_thinkers B w)
      ∧ schedule evs =
        intersperse (Pause BatchQuestionnaires.pause_seconds)
          (Item <$> (questionnaire_command B <$> scanned_thinkers B w))
      ∧ Forall (fun e => is_print e = true) more
  end.
Proof.
  unfold scanned_thinkers.
  destruct (get_available_thinkers (listdir B (trace w) thinkers_dir))
    as [|t rest] eqn:Hl.
  - unfold BatchQuestionnaires.main. unfold mbind at 1, M_bind at 1.
    change (history w) with (Return (trace w), w). cbv beta iota zeta.
    rewrite Hl. unfold nothing_to_do. run_monad. flatten_trace. reflexivity.
  - unfold BatchQuestionnaires.main. unfold mbind at 1, M_bind at 1.
    change (history w) with (Return (trace w), w). cbv beta iota zeta.
    rewrite Hl. unfold mbind at 1, M_bind at 1.
    destruct (questionnaires_run_batch_spec (t :: rest) w)
      as (oks & evs & -> & Hlen & Hs).
    match goal with |- context [summary B ?t ?s ?d ?x ?a ?b ?c ?w'] =>
      destruct (summary_spec B t s d x a b c w') as (more & -> & Hm) end.
    exists oks, evs, more. rewrite extend_extend.
    split; [unfold questionnaire_title; reflexivity|]. split; [exact Hlen|]. split; [exact Hs|exact Hm].
Qed.

End RunBatch.

End BatchMainFacts.

Module BatchScheduleFacts.
Import Batch BatchFacts BatchMainFacts.

Lemma tally_prints_print (title_line : str) (s f total : nat) :
  Forall (fun e => is_print e = true) (tally_prints title_line s f total).
Proof. by repeat constructor. Qed.

(** The report adds nothing to the schedule. *)
Lemma schedule_with_report (evs more : list event) (title_line : str)
    (s f total : nat) :
  Forall (fun e => is_print e = true) more →
  schedule (evs ++ tally_prints title_line s f total ++ more) = schedule evs.
Proof.
  intros Hm. rewrite !schedule_app.
  rewrite (schedule_prints _ (tally_prints_print _ _ _ _)).
  rewrite (schedule_prints _ Hm). by rewrite app_nil_r.
Qed.

Lemma thinkers_main_schedule (B : batch_env) (w : world) :
  ∃ evs : list event,
    BatchThinkers.main B w = (Return tt, extend w evs)
    ∧ schedule evs =
      intersperse (Pause BatchThinkers.pause_seconds)
        (Item <$> (essay_command B <$> BatchThinkers.thinkers)).
Proof.
  destruct (thinkers_main_spec B w) as (oks & evs & more & -> & _ & Hs & Hm).
  eexists. split; [done|]. by rewrite schedule_with_report.
Qed.

Lemma questionnaires_main_schedule (B : batch_env) (w : world) :
  ∃ evs : list event,
    BatchQuestionnaires.main B w = (Return tt, extend w evs)
    ∧ schedule evs =
      intersperse (Pause BatchQuestionnaires.pause_seconds)
        (Item <$> (questionnaire_command B <$> scanned_thinkers B w)).
Proof.
  pose proof (questionnaires_main_spec B w) as H.
  destruct (scanned_thinkers B w) as [|t rest].
  - rewrite H. by exists nothing_to_do.
  - destruct H as (oks & evs & more & -> & _ & Hs & Hm).
    eexists. split; [done|]. by rewrite schedule_with_report.
Qed.

End BatchScheduleFacts.

(** * The claims *)

(** ** Naming *)

(** C4, as the sentence reads, at "Søren Kierkegaard": the name is not
    recovered by the table rather than by title-casing, since title-casing
    the file name alone already gives "Søren Kierkegaard". *)
Lemma recovered_by_override_table_counterexample :
  ¬ recovered_by_override_table (py "Søren Kierkegaard").
Proof.
  intros [_ Hgeneric]. apply Hgeneric. vm_compute. reflexivity.
Qed.

(** C4, amended: for the two display names of the override table,
    "Jean-Paul Sartre" and "Søren Kierkegaard", going from the display
    name to the slug, to the file name [<slug>_meaning.txt] and back
    through [get_available_thinkers] gives the display name again; "Søren
    Kierkegaard" gives the slug "søren_kierkegaard" and the file name
    "søren_kierkegaard_meaning.txt".  Title-casing alone already gives
    both names: for "Søren Kierkegaard" the second entry of the table
    matches and assigns the same string, and for "Jean-Paul Sartre" the
    guard "Jean-paul Sartre" of the first entry is not met, the letter
    after the hyphen being capitalised by the title-casing. *)
Theorem override_names_round_trip :
  thinker_name_of_file (meaning_filename (py "Jean-Paul Sartre"))
  = py "Jean-Paul Sartre"
  ∧ thinker_name_of_file (meaning_filename (py "Søren Kierkegaard"))
    = py "Søren Kierkegaard"
  ∧ slug (py "Søren Kierkegaard") = py "søren_kierkegaard"
  ∧ meaning_filename (py "Søren Kierkegaard")
    = py "søren_kierkegaard_meaning.txt"
  ∧ generic_name (py "søren_kierkegaard_meaning.txt")
    = py "Søren Kierkegaard"
  ∧ generic_name (py "søren_kierkegaard_meaning.txt")
    ≠ py "Jean-paul Sartre"
  ∧ generic_name (meaning_filename (py "Jean-Paul Sartre"))
    = py "Jean-Paul Sartre"
  ∧ generic_name (meaning_filename (py "Jean-Paul Sartre"))
    ≠ py "Jean-paul Sartre"
  ∧ get_available_thinkers
      (Some [meaning_filename (py "Søren Kierkegaard");
             meaning_filename (py "Jean-Paul Sartre")])
    = [py "Jean-Paul Sartre"; py "Søren Kierkegaard"].
Proof.
  repeat split; try (vm_compute; reflexivity); vm_compute; discriminate.
Qed.

(** C9: [get_available_thinkers] returns the display names derived from
    the matching files of the scanned directory in ascending
    (code-point lexicographic) order, whatever the order in which the
    directory lists its entries; the questionnaire batch started on that
    directory runs one child process per returned name, in that order. *)
Theorem get_available_thinkers_sorted (B : Batch.batch_env) (w : world)
    (entries entries' : list str) :
  Batch.listdir B (trace w) thinkers_dir = Some entries →
  entries ≡ₚ entries' →
  let thinkers := get_available_thinkers (Some entries) in
  Sorted str_le thinkers
  ∧ thinkers ≡ₚ (thinker_name_of_file <$> glob_meaning entries)
  ∧ get_available_thinkers (Some entries') = thinkers
  ∧ ∃ evs : list event,
      BatchQuestionnaires.main B w = (Return tt, extend w evs)
      ∧ started (schedule evs) = questionnaire_command B <$> thinkers.
Proof.
  intros Hdir Hperm thinkers. repeat split.
  - apply sorted_Sorted.
  - apply sorted_Permutation.
  - unfold thinkers, get_available_thinkers. apply sorted_perm_invariant.
    unfold glob_meaning, glob_suffix.
    apply Permutation_map, List_filter_Permutation. by symmetry.
  - destruct (BatchScheduleFacts.questionnaires_main_schedule B w)
      as (evs & Hmain & Hs).
    exists evs. split; [done|]. rewrite Hs.
    rewrite BatchMainFacts.started_intersperse.
    unfold scanned_thinkers. by rewrite Hdir.
Qed.

Lemma get_available_thinkers_sorted_witness :
  let thinkers := get_available_thinkers (Some Samples.essays_dir) in
  Sorted str_le thinkers
  ∧ thinkers ≡ₚ (thinker_name_of_file <$> glob_meaning Samples.essays_dir)
  ∧ get_available_thinkers (Some Samples.essays_dir') = thinkers
  ∧ ∃ evs : list event,
      BatchQuestionnaires.main Samples.batch_sample Samples.empty_world
      = (Return tt, extend Samples.empty_world evs)
      ∧ started (schedule evs)
        = questionnaire_command Samples.batch_sample <$> thinkers.
Proof.
  apply (get_available_thinkers_sorted Samples.batch_sample
           Samples.empty_world Samples.essays_dir Samples.essays_dir').
  - reflexivity.
  - unfold Samples.essays_dir, Samples.essays_dir'.
    apply (Permutation_trans (l' :=
             py "albert_camus_meaning.txt" ::
             [py "viktor_frankl_meaning.txt"; py "notes.txt";
              py "søren_kierkegaard_meaning.txt"])).
    + symmetry. apply (Permutation_middle
        [py "viktor_frankl_meaning.txt"; py "notes.txt";
         py "søren_kierkegaard_meaning.txt"] [] (py "albert_camus_meaning.txt")).
    + apply perm_skip.
      apply (Permutation_trans (l' :=
               py "søren_kierkegaard_meaning.txt" ::
               [py "viktor_frankl_meaning.txt"; py "notes.txt"])).
      * symmetry. apply (Permutation_middle
          [py "viktor_frankl_meaning.txt"; py "notes.txt"] []
          (py "søren_kierkegaard_meaning.txt")).
      * apply perm_skip, perm_swap.
Defined.

(** ** The batch loop *)

(** C3: a batch orchestrator run on a work list of length N starts one
    child process per item, in the order of the list (every item once, a
    failed item does not stop the loop), and ends with
    successful + failed = N.  One turn of the loop hands the head item to
    the runner, adds one to exactly one of the two counters and goes on
    with the rest of the list.  The two [main]s do so on their own work
    lists and print that tally. *)
Theorem batch_tally_covers_every_item (B : Batch.batch_env)
    (thinkers : list str) (w : world) :
  (∃ (successful failed : nat) (evs : list event),
     BatchThinkers.run_batch B thinkers w
     = (Return (successful, failed), extend w evs)
     ∧ started (schedule evs) = essay_command B <$> thinkers
     ∧ successful + failed = length thinkers)
  ∧ (∃ (successful failed : nat) (evs : list event),
       BatchQuestionnaires.run_batch B thinkers w
       = (Return (successful, failed), extend w evs)
       ∧ started (schedule evs) = questionnaire_command B <$> thinkers
       ∧ successful + failed = length thinkers)
  ∧ (∀ (script noun : str) (key : option str) (seconds n i : nat)
       (thinker : str) (rest : list str) (successful failed : nat)
       (w' : world),
       ∃ (ok : bool) (evs : list event),
         Batch.for_each
           (fun t => Batch.run_generation B script noun t key)
           seconds n i (thinker :: rest) successful failed w'
         = Batch.for_each
             (fun t => Batch.run_generation B script noun t key)
             seconds n (i + 1) rest
             (if ok then successful + 1 else successful)
             (if ok then failed else failed + 1)
             (extend w' evs)
         ∧ started (schedule evs) = [command B script thinker key])
  ∧ (∃ (successful failed : nat) (evs more : list event),
       BatchThinkers.main B w
       = (Return tt,
          extend w (evs ++ tally_prints essay_title successful failed
                             (length BatchThinkers.thinkers) ++ more))
       ∧ started (schedule evs) = essay_command B <$> BatchThinkers.thinkers
       ∧ started (schedule more) = []
       ∧ successful + failed = length BatchThinkers.thinkers)
  ∧ match scanned_thinkers B w with
    | [] =>
      BatchQuestionnaires.main B w = (Return tt, extend w nothing_to_do)
    | _ :: _ =>
      ∃ (successful failed : nat) (evs more : list event),
        BatchQuestionnaires.main B w
        = (Return tt,
           extend w (evs ++ tally_prints questionnaire_title successful
                              failed (length (scanned_thinkers B w))
                         ++ more))
        ∧ started (schedule evs)
          = questionnaire_command B <$> scanned_thinkers B w
        ∧ started (schedule more) = []
        ∧ successful + failed = length (scanned_thinkers B w)
    end.
Proof.
  split; [|split; [|split; [|split]]].
  - destruct (BatchMainFacts.thinkers_run_batch_spec B thinkers w)
      as (oks & evs & Hrun & Hlen & Hs).
    exists (count_true oks), (count_false oks), evs.
    rewrite Hs, BatchMainFacts.started_intersperse.
    by rewrite BatchFacts.count_true_false.
  - destruct (BatchMainFacts.questionnaires_run_batch_spec B thinkers w)
      as (oks & evs & Hrun & Hlen & Hs).
    exists (count_true oks), (count_false oks), evs.
    rewrite Hs, BatchMainFacts.started_intersperse.
    by rewrite BatchFacts.count_true_false.
  - intros script noun key seconds n i thinker rest s f w'.
    destruct (BatchFacts.for_each_turn B script noun key seconds n i
                thinker rest s f w') as (ok & evs & Hturn & Hs).
    exists ok, evs. split; [done|]. rewrite Hs. by destruct (i <? n).
  - destruct (BatchMainFacts.thinkers_main_spec B w)
      as (oks & evs & more & Hmain & Hlen & Hs & Hm).
    exists (count_true oks), (count_false oks), evs, more.
    rewrite Hs, BatchMainFacts.started_intersperse.
    rewrite (BatchFacts.schedule_prints _ Hm).
    by rewrite BatchFacts.count_true_false.
  - pose proof (BatchMainFacts.questionnaires_main_spec B w) as H.
    destruct (scanned_thinkers B w) as [|t rest]; [done|].
    destruct H as (oks & evs & more & Hmain & Hlen & Hs & Hm).
    exists (count_true oks), (count_false oks), evs, more.
    rewrite Hs, BatchMainFacts.started_intersperse.
    rewrite (BatchFacts.schedule_prints _ Hm).
    by rewrite BatchFacts.count_true_false.
Qed.

(** C8: in a batch run on a work list of length N the schedule of child
    processes and pauses is the list of items with one pause of the
    fixed length (2 seconds for essays, 3 for questionnaires) between
    each two neighbours: N - 1 pauses in all, the last step is the last
    item and not a pause, and a list of one item gives no pause.  The
    report after the loop adds no pause: the whole of each [main] has
    that schedule on its own work list. *)
Theorem pause_between_items_only (B : Batch.batch_env)
    (thinkers : list str) (w : world) :
  (∃ (r : nat * nat) (evs : list event),
     BatchThinkers.run_batch B thinkers w = (Return r, extend w evs)
     ∧ schedule evs
       = intersperse (Pause 2) (Item <$> (essay_command B <$> thinkers))
     ∧ pauses (schedule evs) = length thinkers - 1
     ∧ last (schedule evs) = Item <$> last (essay_command B <$> thinkers))
  ∧ (∃ (r : nat * nat) (evs : list event),
       BatchQuestionnaires.run_batch B thinkers w = (Return r, extend w evs)
       ∧ schedule evs
         = intersperse (Pause 3)
             (Item <$> (questionnaire_command B <$> thinkers))
       ∧ pauses (schedule evs) = length thinkers - 1
       ∧ last (schedule evs)
         = Item <$> last (questionnaire_command B <$> thinkers))
  ∧ (∀ thinker : str,
       (∃ (r : nat * nat) (evs : list event),
          BatchThinkers.run_batch B [thinker] w = (Return r, extend w evs)
          ∧ schedule evs = [Item (essay_command B thinker)])
       ∧ (∃ (r : nat * nat) (evs : list event),
            BatchQuestionnaires.run_batch B [thinker] w
            = (Return r, extend w evs)
            ∧ schedule evs = [Item (questionnaire_command B thinker)]))
  ∧ (∃ evs : list event,
       BatchThinkers.main B w = (Return tt, extend w evs)
       ∧ schedule evs
         = intersperse (Pause 2)
             (Item <$> (essay_command B <$> BatchThinkers.thinkers))
       ∧ pauses (schedule evs) = 4)
  ∧ (∃ evs : list event,
       BatchQuestionnaires.main B w = (Return tt, extend w evs)
       ∧ schedule evs
         = intersperse (Pause 3)
             (Item <$> (questionnaire_command B <$> scanned_thinkers B w))
       ∧ pauses (schedule evs) = length (scanned_thinkers B w) - 1).
Proof.
  split; [|split; [|split; [|split]]].
  - destruct (BatchMainFacts.thinkers_run_batch_spec B thinkers w)
      as (oks & evs & Hrun & Hlen & Hs).
    eexists _, evs. split; [exact Hrun|]. rewrite Hs.
    rewrite BatchMainFacts.pauses_intersperse,
      BatchMainFacts.last_intersperse.
    by rewrite length_fmap.
  - destruct (BatchMainFacts.questionnaires_run_batch_spec B thinkers w)
      as (oks & evs & Hrun & Hlen & Hs).
    eexists _, evs. split; [exact Hrun|]. rewrite Hs.
    rewrite BatchMainFacts.pauses_intersperse,
      BatchMainFacts.last_intersperse.
    by rewrite length_fmap.
  - intros thinker. split.
    + destruct (BatchMainFacts.thinkers_run_batch_spec B [thinker] w)
        as (oks & evs & Hrun & Hlen & Hs).
      by eexists _, evs.
    + destruct (BatchMainFacts.questionnaires_run_batch_spec B [thinker] w)
        as (oks & evs & Hrun & Hlen & Hs).
      by eexists _, evs.
  - destruct (BatchScheduleFacts.thinkers_main_schedule B w)
      as (evs & Hmain & Hs).
    exists evs. split; [done|]. rewrite Hs.
    by rewrite BatchMainFacts.pauses_intersperse.
  - destruct (BatchScheduleFacts.questionnaires_main_schedule B w)
      as (evs & Hmain & Hs).
    exists evs. split; [done|]. rewrite Hs.
    rewrite BatchMainFacts.pauses_intersperse. by rewrite length_fmap.
Qed.

(** ** The single-item scripts *)

Lemma str_truthy_true (s : str) : s ≠ [] → str_truthy s = true.
Proof. by destruct s. Qed.

Lemma str_truthy_false (s : str) : s = [] → str_truthy s = false.
Proof. by intros ->. Qed.

Lemma endswith_app (p s : str) : endswith (p ++ s) s = true.
Proof.
  unfold endswith. rewrite reverse_app.
  induction (reverse s) as [|c r IH]; [done|].
  cbn. by rewrite N.eqb_refl.
Qed.

(** The essay script lets the missing-credential error leave [main]: the
    process ends with a traceback and exit status 1. *)
Lemma essay_missing_credential_escapes (E : env) (a : args) (w : world) :
  absent (arg_api_key a) → absent (environ_api_key E) →
  Meaning.main E a w
  = (Raise (ValueError key_not_found), extend w [essay_greeting a])
  ∧ exit_code (Meaning.main E a w).1 = 1%Z.
Proof.
  intros Ha He. rewrite MeaningFacts.essay_main_spec. cbv zeta.
  by rewrite (proj2 (resolve_key_None E (arg_api_key a)) (conj Ha He)).
Qed.

(** C1, the essay script at a failing input: with a credential at hand
    and the collaborator raising, [main] prints "Failed to generate
    essay." and returns, so the process exits with status 0 although no
    essay was written; the questionnaire script exits with status 0 on
    every run, whatever failed. *)
Theorem failed_run_exits_zero (E : env) (a : args) (w : world) (k : str)
    (e : exn) :
  resolve_key E (arg_api_key a) = Some k →
  chat_completion E k (essay_request (arg_thinker_name a) (arg_model a))
  = ApiRaises e →
  exit_code (Meaning.main E a w).1 = 0%Z
  ∧ files (Meaning.main E a w).2 = files w
  ∧ Print (py "Failed to generate essay.") ∈ trace (Meaning.main E a w).2
  ∧ ∀ (E' : env) (a' : args) (w' : world),
      exit_code (Questionnaire.main E' a' w').1 = 0%Z.
Proof.
  intros Hk Hapi. rewrite MeaningFacts.essay_main_spec. cbv zeta.
  rewrite Hk, Hapi. cbn. repeat split.
  - apply elem_of_app. right. set_solver.
  - intros E' a' w'. rewrite QuestionnaireFacts.questionnaire_main_spec.
    cbv zeta.
    destruct (files w' !! _); [|done].
    destruct (resolve_key E' _); [|done].
    destruct (chat_completion E' _ _); [done|].
    destruct (str_truthy _); [|done].
    by destruct (open_for_write E' _).
Qed.

Lemma failed_run_exits_zero_witness :
  exit_code (Meaning.main Samples.env_api_down Samples.camus_args
               Samples.empty_world).1 = 0%Z
  ∧ files (Meaning.main Samples.env_api_down Samples.camus_args
             Samples.empty_world).2 = files Samples.empty_world
  ∧ Print (py "Failed to generate essay.")
    ∈ trace (Meaning.main Samples.env_api_down Samples.camus_args
               Samples.empty_world).2
  ∧ ∀ (E' : env) (a' : args) (w' : world),
      exit_code (Questionnaire.main E' a' w').1 = 0%Z.
Proof.
  apply (failed_run_exits_zero Samples.env_api_down Samples.camus_args
           Samples.empty_world (py "sk-test")
           (OtherError (py "Connection error."))); reflexivity.
Defined.

(** C2: when the essay file [../thinkers_texts/<slug>_meaning.txt] of a
    thinker does not exist, [read_thinker_text] raises
    [FileNotFoundError] and the questionnaire run for that thinker only
    prints its greeting and the error: it sends nothing to the
    collaborator and writes no file. *)
Theorem missing_essay_stops_before_collaborator (E : env) (a : args)
    (w : world) :
  files w !! meaning_filepath (arg_thinker_name a) = None →
  Questionnaire.read_thinker_text (arg_thinker_name a) w
  = (Raise (essay_not_found (arg_thinker_name a)), w)
  ∧ ∃ evs : list event,
      Questionnaire.main E a w = (Return tt, extend w evs)
      ∧ evs = questionnaire_greeting a
              :: handler_prints (essay_not_found (arg_thinker_name a))
      ∧ chat_calls evs = []
      ∧ save_steps evs = [].
Proof.
  intros Hmiss. split.
  - rewrite QuestionnaireFacts.read_thinker_text_spec. by rewrite Hmiss.
  - eexists. split; [|split; [reflexivity|by split]].
    rewrite QuestionnaireFacts.questionnaire_main_spec. cbv zeta.
    by rewrite Hmiss.
Qed.

Lemma missing_essay_stops_before_collaborator_witness :
  Questionnaire.read_thinker_text Samples.camus Samples.empty_world
  = (Raise (essay_not_found Samples.camus), Samples.empty_world)
  ∧ ∃ evs : list event,
      Questionnaire.main Samples.env_padded Samples.camus_args
        Samples.empty_world
      = (Return tt, extend Samples.empty_world evs)
      ∧ evs = questionnaire_greeting Samples.camus_args
              :: handler_prints (essay_not_found Samples.camus)
      ∧ chat_calls evs = []
      ∧ save_steps evs = [].
Proof.
  apply (missing_essay_stops_before_collaborator Samples.env_padded
           Samples.camus_args Samples.empty_world).
  reflexivity.
Defined.

(** C5, as the sentence reads, at a questionnaire run without the essay
    file and without a credential: the run reports the missing file; the
    missing-credential error is never raised and its message is not
    printed. *)
Lemma missing_credential_reported_counterexample :
  ¬ missing_credential_reported Questionnaire.main Samples.env_no_key
      Samples.camus_args Samples.empty_world.
Proof.
  intros H. destruct H as (evs & prefix & Hmain & Hin); [done..|].
  rewrite QuestionnaireFacts.questionnaire_main_spec in Hmain.
  cbv zeta in Hmain.
  change (files Samples.empty_world
          !! meaning_filepath (arg_thinker_name Samples.camus_args))
    with (@None str) in Hmain.
  cbv beta iota in Hmain.
  unfold extend in Hmain. cbn [trace files Samples.empty_world app] in Hmain.
  injection Hmain as <-.
  assert (∀ m : str, Print (prefix ++ key_not_found) = Print m →
                     endswith m key_not_found = true) as Hend.
  { intros m [= <-]. apply endswith_app. }
  apply elem_of_cons in Hin as [Hin|Hin]; [by apply Hend in Hin|].
  apply elem_of_cons in Hin as [Hin|Hin]; [by apply Hend in Hin|].
  apply elem_of_cons in Hin as [Hin|Hin]; [by apply Hend in Hin|].
  by apply elem_of_nil in Hin.
Qed.

(** C5, amended: [setup_openai_client] raises the missing-credential
    error exactly when the credential is absent or empty both in the
    argument and in [OPENAI_API_KEY]; the essay generator always reaches
    it, so it raises that error under the same condition; a
    questionnaire run reaches it only when the essay file exists, and
    then, without a credential, [main] catches the error, prints it and
    returns, having sent nothing to the collaborator and written no
    file; without the essay file the run reports the missing file
    instead, whatever the credential. *)
Theorem missing_credential_contained (E : env) (a : args) (w : world) :
  (setup_openai_client E (arg_api_key a) w
   = (Raise (ValueError key_not_found), w)
   ↔ absent (arg_api_key a) ∧ absent (environ_api_key E))
  ∧ (Meaning.generate_thinker_meaning_essay E (arg_thinker_name a)
       (arg_api_key a) (arg_model a) w
     = (Raise (ValueError key_not_found), w)
     ↔ absent (arg_api_key a) ∧ absent (environ_api_key E))
  ∧ match files w !! meaning_filepath (arg_thinker_name a) with
    | Some thinker_text =>
      (Questionnaire.generate_thinker_questionnaire E (arg_thinker_name a)
         thinker_text (arg_api_key a) (arg_model a) w
       = (Raise (ValueError key_not_found), w)
       ↔ absent (arg_api_key a) ∧ absent (environ_api_key E))
      ∧ (absent (arg_api_key a) ∧ absent (environ_api_key E) →
         Questionnaire.main E a w
         = (Return tt,
            extend w [questionnaire_greeting a; loaded a thinker_text;
                      Print (py "❌ Error: " ++ key_not_found)]))
    | None =>
      Questionnaire.main E a w
      = (Return tt,
         extend w (questionnaire_greeting a
                   :: handler_prints
                        (essay_not_found (arg_thinker_name a))))
    end.
Proof.
  rewrite <- resolve_key_None. split; [|split].
  - rewrite setup_openai_client_spec.
    destruct (resolve_key E (arg_api_key a));
      (split; intros H; first [reflexivity|discriminate H]).
  - rewrite MeaningFacts.essay_generate_spec. cbv zeta.
    destruct (resolve_key E (arg_api_key a)) as [k|];
      [destruct (chat_completion E k _)|];
      (split; intros H; first [reflexivity|discriminate H]).
  - pose proof (QuestionnaireFacts.questionnaire_main_spec E a w) as Hmain.
    cbv zeta in Hmain.
    destruct (files w !! meaning_filepath (arg_thinker_name a))
      as [thinker_text|]; [|done].
    split.
    + rewrite <- resolve_key_None.
      rewrite QuestionnaireFacts.questionnaire_generate_spec. cbv zeta.
      destruct (resolve_key E (arg_api_key a)) as [k|];
        [destruct (chat_completion E k _)|];
      (split; intros H; first [reflexivity|discriminate H]).
    + intros Hk. apply resolve_key_None in Hk. rewrite Hk in Hmain.
      cbn [handler_prints exn_msg] in Hmain. exact Hmain.
Qed.

Lemma missing_credential_contained_witness :
  Questionnaire.main Samples.env_no_key Samples.camus_args
    Samples.camus_world
  = (Return tt,
     extend Samples.camus_world
       [questionnaire_greeting Samples.camus_args;
        loaded Samples.camus_args (py "Camus held that life is absurd.");
        Print (py "❌ Error: " ++ key_not_found)]).
Proof.
  pose proof (missing_credential_contained Samples.env_no_key
                Samples.camus_args Samples.camus_world) as (_ & _ & H).
  change (files Samples.camus_world
          !! meaning_filepath (arg_thinker_name Samples.camus_args))
    with (Some (py "Camus held that life is absurd.")) in H.
  apply H. by split.
Defined.

(** C6: a single-item run that succeeds (a credential is at hand, the
    collaborator returns text that does not strip to nothing, the output
    file can be opened; for the questionnaire script the essay exists)
    returns and writes exactly one file, at the path fixed by the thinker
    name: [../thinkers_texts/<slug>_meaning.txt], respectively
    [../generated_questionnaires/<slug>_questionnaire.txt].  The file
    starts with the line "Generated on: <timestamp>", then the line
    "Thinker: <name>" with the name as it was given (then, for a
    questionnaire, the type line), a rule of 50 "=", a blank line, and
    then the generated text. *)
Theorem successful_run_writes_one_file (E : env) (a : args) (w : world) :
  let name := arg_thinker_name a in
  (∀ k content : str,
     resolve_key E (arg_api_key a) = Some k →
     chat_completion E k (essay_request name (arg_model a))
     = ApiReturns content →
     strip content ≠ [] →
     open_for_write E (meaning_filepath name) = None →
     let body :=
       py "Generated on: " ++ now E ++ nl ++ py "Thinker: " ++ name ++ nl
       ++ repeat_char 61 50 ++ nl ++ nl ++ strip content in
     ∃ evs : list event,
       Meaning.main E a w
       = (Return tt,
          {| files := <[meaning_filepath name := body]> (files w);
             trace := trace w ++ evs |})
       ∧ written evs = [(meaning_filepath name, body)]
       ∧ meaning_filepath name
         = path_join (py "../thinkers_texts")
             (lower (replace (py " ") (py "_") name) ++ py "_meaning.txt"))
  ∧ (∀ thinker_text k content : str,
       files w !! meaning_filepath name = Some thinker_text →
       resolve_key E (arg_api_key a) = Some k →
       chat_completion E k
         (questionnaire_request name thinker_text (arg_model a))
       = ApiReturns content →
       strip content ≠ [] →
       open_for_write E (questionnaire_filepath name) = None →
       let body :=
         py "Generated on: " ++ now E ++ nl ++ py "Thinker: " ++ name ++ nl
         ++ py "Questionnaire Type: Meaning in Life" ++ nl
         ++ repeat_char 61 50 ++ nl ++ nl ++ strip content in
       ∃ evs : list event,
         Questionnaire.main E a w
         = (Return tt,
            {| files := <[questionnaire_filepath name := body]> (files w);
               trace := trace w ++ evs |})
         ∧ written evs = [(questionnaire_filepath name, body)]
         ∧ questionnaire_filepath name
           = path_join (py "../generated_questionnaires")
               (lower (replace (py " ") (py "_") name)
                ++ py "_questionnaire.txt")).
Proof.
  intros name. split.
  - intros k content Hk Hapi Hne Hopen body.
    rewrite MeaningFacts.essay_main_spec. cbv zeta. fold name.
    rewrite Hk, Hapi, (str_truthy_true _ Hne), Hopen.
    eexists. split; [|split; [|done]].
    + unfold body, Meaning.header. rewrite <- ?app_assoc. reflexivity.
    + unfold body, Meaning.header. cbn [written]. rewrite <- ?app_assoc.
      reflexivity.
  - intros thinker_text k content Hfile Hk Hapi Hne Hopen body.
    rewrite QuestionnaireFacts.questionnaire_main_spec. cbv zeta. fold name.
    rewrite Hfile, Hk, Hapi, (str_truthy_true _ Hne), Hopen.
    eexists. split; [|split; [|done]].
    + unfold body, Questionnaire.header. rewrite <- ?app_assoc. reflexivity.
    + unfold body, Questionnaire.header. cbn [written].
      rewrite <- ?app_assoc. reflexivity.
Qed.

Lemma successful_run_writes_one_file_witness :
  (∃ evs : list event,
     Meaning.main Samples.env_padded Samples.camus_args Samples.empty_world
     = (Return tt,
        {| files :=
             <[meaning_filepath Samples.camus :=
                 py "Generated on: " ++ now Samples.env_padded ++ nl
                 ++ py "Thinker: " ++ Samples.camus ++ nl
                 ++ repeat_char 61 50 ++ nl ++ nl
                 ++ strip Samples.padded_answer]>
               (files Samples.empty_world);
           trace := trace Samples.empty_world ++ evs |})
     ∧ written evs
       = [(meaning_filepath Samples.camus,
           py "Generated on: " ++ now Samples.env_padded ++ nl
           ++ py "Thinker: " ++ Samples.camus ++ nl
           ++ repeat_char 61 50 ++ nl ++ nl
           ++ strip Samples.padded_answer)]
     ∧ meaning_filepath Samples.camus
       = path_join (py "../thinkers_texts")
           (lower (replace (py " ") (py "_") Samples.camus)
            ++ py "_meaning.txt"))
  ∧ (∃ evs : list event,
       Questionnaire.main Samples.env_padded Samples.camus_args
         Samples.camus_world
       = (Return tt,
          {| files :=
               <[questionnaire_filepath Samples.camus :=
                   py "Generated on: " ++ now Samples.env_padded ++ nl
                   ++ py "Thinker: " ++ Samples.camus ++ nl
                   ++ py "Questionnaire Type: Meaning in Life" ++ nl
                   ++ repeat_char 61 50 ++ nl ++ nl
                   ++ strip Samples.padded_answer]>
                 (files Samples.camus_world);
             trace := trace Samples.camus_world ++ evs |})
       ∧ written evs
         = [(questionnaire_filepath Samples.camus,
             py "Generated on: " ++ now Samples.env_padded ++ nl
             ++ py "Thinker: " ++ Samples.camus ++ nl
             ++ py "Questionnaire Type: Meaning in Life" ++ nl
             ++ repeat_char 61 50 ++ nl ++ nl
             ++ strip Samples.padded_answer)]
       ∧ questionnaire_filepath Samples.camus
         = path_join (py "../generated_questionnaires")
             (lower (replace (py " ") (py "_") Samples.camus)
              ++ py "_questionnaire.txt")).
Proof.
  split.
  - apply (proj1 (successful_run_writes_one_file Samples.env_padded
                    Samples.camus_args Samples.empty_world)
             (py "sk-test") Samples.padded_answer);
      [reflexivity|reflexivity|vm_compute; discriminate|reflexivity].
  - apply (proj2 (successful_run_writes_one_file Samples.env_padded
                    Samples.camus_args Samples.camus_world)
             (py "Camus held that life is absurd.") (py "sk-test")
             Samples.padded_answer);
      [reflexivity|reflexivity|reflexivity|vm_compute; discriminate
      |reflexivity].
Defined.

(** C7, as the sentence reads, at an essay run whose collaborator
    returns text with white space around it: the body of the essay file
    is not the returned text. *)
Lemma persisted_as_is_counterexample :
  ¬ persisted_as_is Samples.env_padded Samples.camus_args
      Samples.empty_world.
Proof.
  intros H.
  specialize (H (py "sk-test") Samples.padded_answer eq_refl eq_refl).
  assert (Samples.padded_answer ≠ []) as Hne by (vm_compute; discriminate).
  specialize (H Hne). vm_compute in H. discriminate H.
Qed.

(** C7, amended: the single-item scripts accept whatever text the
    collaborator returns as long as it does not strip to the empty
    string; nothing else about it is examined.  What they persist is the
    text with the white space at both ends removed: after the run the
    output file is the header followed by exactly that stripped text, and
    a text that has no white space at its ends is persisted as it is. *)
Theorem stripped_text_persisted (E : env) (a : args) (w : world) :
  let name := arg_thinker_name a in
  (∀ k content : str,
     resolve_key E (arg_api_key a) = Some k →
     chat_completion E k (essay_request name (arg_model a))
     = ApiReturns content →
     strip content ≠ [] →
     open_for_write E (meaning_filepath name) = None →
     files (Meaning.main E a w).2 !! meaning_filepath name
     = Some (Meaning.header (now E) name ++ strip content)
     ∧ (strip content = content →
        files (Meaning.main E a w).2 !! meaning_filepath name
        = Some (Meaning.header (now E) name ++ content)))
  ∧ (∀ thinker_text k content : str,
       files w !! meaning_filepath name = Some thinker_text →
       resolve_key E (arg_api_key a) = Some k →
       chat_completion E k
         (questionnaire_request name thinker_text (arg_model a))
       = ApiReturns content →
       strip content ≠ [] →
       open_for_write E (questionnaire_filepath name) = None →
       files (Questionnaire.main E a w).2 !! questionnaire_filepath name
       = Some (Questionnaire.header (now E) name ++ strip content)
       ∧ (strip content = content →
          files (Questionnaire.main E a w).2 !! questionnaire_filepath name
          = Some (Questionnaire.header (now E) name ++ content))).
Proof.
  intros name. split.
  - intros k content Hk Hapi Hne Hopen.
    rewrite MeaningFacts.essay_main_spec. cbv zeta. fold name.
    rewrite Hk, Hapi, (str_truthy_true _ Hne), Hopen. cbn [snd files].
    rewrite lookup_insert_eq. split; [done|]. by intros ->.
  - intros thinker_text k content Hfile Hk Hapi Hne Hopen.
    rewrite QuestionnaireFacts.questionnaire_main_spec. cbv zeta. fold name.
    rewrite Hfile, Hk, Hapi, (str_truthy_true _ Hne), Hopen. cbn [snd files].
    rewrite lookup_insert_eq. split; [done|]. by intros ->.
Qed.

Lemma stripped_text_persisted_witness :
  files (Meaning.main Samples.env_padded Samples.camus_args
           Samples.empty_world).2 !! meaning_filepath Samples.camus
  = Some (Meaning.header (now Samples.env_padded) Samples.camus
          ++ strip Samples.padded_answer)
  ∧ files (Questionnaire.main Samples.env_padded Samples.camus_args
             Samples.camus_world).2 !! questionnaire_filepath Samples.camus
    = Some (Questionnaire.header (now Samples.env_padded) Samples.camus
            ++ strip Samples.padded_answer).
Proof.
  split.
  - apply (proj1 (stripped_text_persisted Samples.env_padded
                    Samples.camus_args Samples.empty_world)
             (py "sk-test") Samples.padded_answer);
      [reflexivity|reflexivity|vm_compute; discriminate|reflexivity].
  - apply (proj2 (stripped_text_persisted Samples.env_padded
                    Samples.camus_args Samples.camus_world)
             (py "Camus held that life is absurd.") (py "sk-test")
             Samples.padded_answer);
      [reflexivity|reflexivity|reflexivity|vm_compute; discriminate
      |reflexivity].
Defined.

(** C10: when the collaborator raises, or returns text that is empty or
    white space only, the generation function returns a value that
    counts as no result ([None] after an exception, the empty string
    after stripping), and the run of [main] returns without reaching the
    save step: no directory is made, no file is written, the files are
    as they were before the run. *)
Theorem no_result_writes_nothing (E : env) (a : args) (w : world) :
  let name := arg_thinker_name a in
  (∀ k : str,
     resolve_key E (arg_api_key a) = Some k →
     no_result (chat_completion E k (essay_request name (arg_model a))) →
     (∃ (v : option str) (evs : list event),
        Meaning.generate_thinker_meaning_essay E name (arg_api_key a)
          (arg_model a) w
        = (Return v, extend w evs)
        ∧ truthy v = false)
     ∧ ∃ evs : list event,
         Meaning.main E a w = (Return tt, extend w evs)
         ∧ save_steps evs = []
         ∧ files (Meaning.main E a w).2 = files w)
  ∧ (∀ thinker_text k : str,
       files w !! meaning_filepath name = Some thinker_text →
       resolve_key E (arg_api_key a) = Some k →
       no_result
         (chat_completion E k
            (questionnaire_request name thinker_text (arg_model a))) →
       (∃ (v : option str) (evs : list event),
          Questionnaire.generate_thinker_questionnaire E name thinker_text
            (arg_api_key a) (arg_model a) w
          = (Return v, extend w evs)
          ∧ truthy v = false)
       ∧ ∃ evs : list event,
           Questionnaire.main E a w = (Return tt, extend w evs)
           ∧ save_steps evs = []
           ∧ files (Questionnaire.main E a w).2 = files w).
Proof.
  intros name. split.
  - intros k Hk Hno. split.
    + rewrite MeaningFacts.essay_generate_spec. cbv zeta. rewrite Hk.
      fold name. destruct (chat_completion E k _) as [e|content].
      * by eexists None, _.
      * cbn in Hno. eexists (Some (strip content)), _. split; [done|].
        by rewrite Hno.
    + rewrite MeaningFacts.essay_main_spec. cbv zeta. rewrite Hk.
      fold name. destruct (chat_completion E k _) as [e|content].
      * by eexists.
      * cbn in Hno. rewrite (str_truthy_false _ Hno). by eexists.
  - intros thinker_text k Hfile Hk Hno. split.
    + rewrite QuestionnaireFacts.questionnaire_generate_spec. cbv zeta.
      rewrite Hk. destruct (chat_completion E k _) as [e|content].
      * by eexists None, _.
      * cbn in Hno. eexists (Some (strip content)), _. split; [done|].
        by rewrite Hno.
    + rewrite QuestionnaireFacts.questionnaire_main_spec. cbv zeta.
      fold name. rewrite Hfile, Hk.
      destruct (chat_completion E k _) as [e|content].
      * by eexists.
      * cbn in Hno. rewrite (str_truthy_false _ Hno). by eexists.
Qed.

Lemma no_result_writes_nothing_witness :
  (∃ evs : list event,
     Meaning.main Samples.env_api_down Samples.camus_args
       Samples.empty_world
     = (Return tt, extend Samples.empty_world evs)
     ∧ save_steps evs = []
     ∧ files (Meaning.main Samples.env_api_down Samples.camus_args
                Samples.empty_world).2 = files Samples.empty_world)
  ∧ (∃ evs : list event,
       Questionnaire.main Samples.env_blank Samples.camus_args
         Samples.camus_world
       = (Return tt, extend Samples.camus_world evs)
       ∧ save_steps evs = []
       ∧ files (Questionnaire.main Samples.env_blank Samples.camus_args
                  Samples.camus_world).2 = files Samples.camus_world).
Proof.
  split.
  - apply (proj1 (no_result_writes_nothing Samples.env_api_down
                    Samples.camus_args Samples.empty_world)
             (py "sk-test")); [reflexivity|exact I].
  - apply (proj2 (no_result_writes_nothing Samples.env_blank
                    Samples.camus_args Samples.camus_world)
             (py "Camus held that life is absurd.") (py "sk-test"));
      [reflexivity|reflexivity|reflexivity].
Defined.

(** * Further properties of the scripts *)

(** ** The single-item scripts *)




(** X2: when its output file cannot be opened, the essay script lets the
    exception leave [main] (after creating the directory, with no file
    written), whatever the state of the files, a first run included;
    when the questionnaire script cannot open its output file, it catches
    the exception, prints it and returns. *)
Theorem write_failure_escapes_or_is_caught (E : env) (a : args) (w : world) :
  let name := arg_thinker_name a in
  (∀ (k content : str) (e : exn),
     resolve_key E (arg_api_key a) = Some k →
     chat_completion E k (essay_request name (arg_model a))
     = ApiReturns content →
     strip content ≠ [] →
     open_for_write E (meaning_filepath name) = Some e →
     Meaning.main E a w
     = (Raise e,
        extend w [essay_greeting a;
                  ChatCompletion k (essay_request name (arg_model a));
                  Mkdir thinkers_dir]))
  ∧ (∀ (thinker_text k content : str) (e : exn),
       files w !! meaning_filepath name = Some thinker_text →
       resolve_key E (arg_api_key a) = Some k →
       chat_completion E k
         (questionnaire_request name thinker_text (arg_model a))
       = ApiReturns content →
       strip content ≠ [] →
       open_for_write E (questionnaire_filepath name) = Some e →
       Questionnaire.main E a w
       = (Return tt,
          extend w
            (questionnaire_greeting a :: loaded a thinker_text
             :: ChatCompletion k
                  (questionnaire_request name thinker_text (arg_model a))
             :: Mkdir questionnaires_dir :: handler_prints e))).
Proof.
  intros name. split.
  - intros k content e Hk Hapi Hne Hopen.
    rewrite MeaningFacts.essay_main_spec. cbv zeta. fold name.
    by rewrite Hk, Hapi, (str_truthy_true _ Hne), Hopen.
  - intros thinker_text k content e Hfile Hk Hapi Hne Hopen.
    rewrite QuestionnaireFacts.questionnaire_main_spec. cbv zeta. fold name.
    by rewrite Hfile, Hk, Hapi, (str_truthy_true _ Hne), Hopen.
Qed.

Lemma write_failure_escapes_or_is_caught_witness :
  Meaning.main MoreSamples.env_read_only Samples.camus_args
    Samples.empty_world
  = (Raise (OtherError (py "[Errno 13] Permission denied")),
     extend Samples.empty_world
       [essay_greeting Samples.camus_args;
        ChatCompletion (py "sk-test")
          (essay_request Samples.camus (py "gpt-4"));
        Mkdir thinkers_dir])
  ∧ Questionnaire.main MoreSamples.env_read_only Samples.camus_args
      Samples.camus_world
    = (Return tt,
       extend Samples.camus_world
         (questionnaire_greeting Samples.camus_args
          :: loaded Samples.camus_args (py "Camus held that life is absurd.")
          :: ChatCompletion (py "sk-test")
               (questionnaire_request Samples.camus
                  (py "Camus held that life is absurd.") (py "gpt-4"))
          :: Mkdir questionnaires_dir
          :: handler_prints (OtherError (py "[Errno 13] Permission denied")))).
Proof.
  split.
  - apply (proj1 (write_failure_escapes_or_is_caught
                    MoreSamples.env_read_only Samples.camus_args
                    Samples.empty_world)
             (py "sk-test") (py "One must imagine Sisyphus happy.")
             (OtherError (py "[Errno 13] Permission denied")));
      first [reflexivity | vm_compute; discriminate].
  - apply (proj2 (write_failure_escapes_or_is_caught
                    MoreSamples.env_read_only Samples.camus_args
                    Samples.camus_world)
             (py "Camus held that life is absurd.") (py "sk-test")
             (py "One must imagine Sisyphus happy.")
             (OtherError (py "[Errno 13] Permission denied")));
      first [reflexivity | vm_compute; discriminate].
Defined.

Lemma essay_answer_Some (E : env) (a : args) (w : world) (text : str) :
  essay_answer E a = Some text →
  ∃ evs : list event,
    Meaning.main E a w
    = (Return tt,
       {| files :=
            <[meaning_filepath (arg_thinker_name a) :=
                Meaning.header (now E) (arg_thinker_name a) ++ text]>
              (files w);
          trace := trace w ++ evs |}).
Proof.
  unfold essay_answer. rewrite MeaningFacts.essay_main_spec. cbv zeta.
  destruct (resolve_key E (arg_api_key a)) as [k|]; [|done].
  destruct (chat_completion E k _) as [e|content]; [done|].
  destruct (str_truthy (strip content)); [|done].
  destruct (open_for_write E _); [done|].
  intros [= <-]. by eexists.
Qed.

Lemma essay_answer_None (E : env) (a : args) (w : world) :
  essay_answer E a = None → files (Meaning.main E a w).2 = files w.
Proof.
  unfold essay_answer. rewrite MeaningFacts.essay_main_spec. cbv zeta.
  destruct (resolve_key E (arg_api_key a)) as [k|]; [|done].
  destruct (chat_completion E k _) as [e|content]; [done|].
  destruct (str_truthy (strip content)); [|done].
  by destruct (open_for_write E _).
Qed.

(** X3: running the essay script again for the same thinker overwrites the
    file: after two successful runs the file system is the one before the
    first run with the thinker's file set to the header and text of the
    second run; nothing of the first run's file is left. *)
Theorem rerun_overwrites_essay (E1 E2 : env) (a : args) (w : world)
    (text1 text2 : str) :
  essay_answer E1 a = Some text1 →
  essay_answer E2 a = Some text2 →
  files (Meaning.main E2 a (Meaning.main E1 a w).2).2
  = <[meaning_filepath (arg_thinker_name a) :=
        Meaning.header (now E2) (arg_thinker_name a) ++ text2]> (files w).
Proof.
  intros H1 H2.
  destruct (essay_answer_Some E1 a w text1 H1) as (evs1 & ->).
  cbn [snd].
  destruct (essay_answer_Some E2 a
              {| files :=
                   <[meaning_filepath (arg_thinker_name a) :=
                       Meaning.header (now E1) (arg_thinker_name a) ++ text1]>
                     (files w);
                 trace := trace w ++ evs1 |} text2 H2) as (evs2 & ->).
  cbn [snd files]. apply insert_insert_eq.
Qed.

Lemma rerun_overwrites_essay_witness :
  files (Meaning.main MoreSamples.env_later Samples.camus_args
           (Meaning.main Samples.env_padded Samples.camus_args
              Samples.empty_world).2).2
  = <[meaning_filepath (arg_thinker_name Samples.camus_args) :=
        Meaning.header (now MoreSamples.env_later)
          (arg_thinker_name Samples.camus_args)
        ++ py "The absurd is born of a confrontation."]>
      (files Samples.empty_world).
Proof.
  apply (rerun_overwrites_essay Samples.env_padded MoreSamples.env_later
           Samples.camus_args Samples.empty_world
           (strip Samples.padded_answer)
           (py "The absurd is born of a confrontation."));
    vm_compute; reflexivity.
Defined.

(** *** Paths *)

Lemma is_prefix_app_short (p s r : str) :
  length p ≤ length s → is_prefix p (s ++ r) = is_prefix p s.
Proof.
  revert s; induction p as [|x p IH]; intros [|y s] Hlen; cbn in *;
    try done; try lia.
  rewrite IH; [done|lia].
Qed.

Lemma endswith_app_short (x s t : str) :
  length t ≤ length s → endswith (x ++ s) t = endswith s t.
Proof.
  intros Hlen. unfold endswith. rewrite reverse_app.
  apply is_prefix_app_short. by rewrite !length_reverse.
Qed.

Lemma endswith_path_join (dir name t : str) :
  length t ≤ length name →
  endswith (path_join dir name) t = endswith name t.
Proof.
  intros Hlen. unfold path_join. destruct (startswith name _); [done|].
  rewrite (assoc_L (++)). by apply endswith_app_short.
Qed.

Lemma meaning_filepath_suffix (name : str) :
  endswith (meaning_filepath name) (py "_meaning.txt") = true.
Proof.
  unfold meaning_filepath, meaning_filename.
  rewrite endswith_path_join.
  - apply endswith_app.
  - rewrite length_app.
    change (length (py "_meaning.txt")) with 12. lia.
Qed.

Lemma questionnaire_filepath_suffix (name : str) :
  endswith (questionnaire_filepath name) (py "_meaning.txt") = false.
Proof.
  unfold questionnaire_filepath, questionnaire_filename.
  rewrite endswith_path_join.
  - rewrite endswith_app_short; [by vm_compute|].
    change (length (py "_meaning.txt")) with 12.
    change (length (py "_questionnaire.txt")) with 18. lia.
  - rewrite length_app.
    change (length (py "_meaning.txt")) with 12.
    change (length (py "_questionnaire.txt")) with 18. lia.
Qed.

(** The essay of a thinker and the questionnaire of a thinker never share
    a path. *)
Lemma meaning_questionnaire_paths_differ (name name' : str) :
  meaning_filepath name ≠ questionnaire_filepath name'.
Proof.
  intros Heq.
  pose proof (meaning_filepath_suffix name) as H1.
  rewrite Heq, questionnaire_filepath_suffix in H1. discriminate H1.
Qed.

Lemma essay_files_spec (E : env) (a : args) (w : world) :
  files (Meaning.main E a w).2 = files w
  ∨ ∃ body : str,
      files (Meaning.main E a w).2
      = <[meaning_filepath (arg_thinker_name a) := body]> (files w).
Proof.
  rewrite MeaningFacts.essay_main_spec. cbv zeta.
  destruct (resolve_key E (arg_api_key a)) as [k|]; [|by left].
  destruct (chat_completion E k _) as [e|content]; [by left|].
  destruct (str_truthy (strip content)); [|by left].
  destruct (open_for_write E _); [by left|]. right. by eexists.
Qed.

Lemma questionnaire_files_spec (E : env) (a : args) (w : world) :
  files (Questionnaire.main E a w).2 = files w
  ∨ ∃ body : str,
      files (Questionnaire.main E a w).2
      = <[questionnaire_filepath (arg_thinker_name a) := body]> (files w).
Proof.
  rewrite QuestionnaireFacts.questionnaire_main_spec. cbv zeta.
  destruct (files w !! _); [|by left].
  destruct (resolve_key E (arg_api_key a)) as [k|]; [|by left].
  destruct (chat_completion E k _) as [e|content]; [by left|].
  destruct (str_truthy (strip content)); [|by left].
  destruct (open_for_write E _); [by left|]. right. by eexists.
Qed.

(** X4: a single-item run leaves every file other than its own output file
    as it was, whatever happens: in particular a questionnaire run never
    changes the essay it reads, and an essay run never changes a
    questionnaire. *)
Theorem run_touches_only_its_output (E : env) (a : args) (w : world)
    (p : str) :
  let name := arg_thinker_name a in
  p ≠ meaning_filepath name →
  p ≠ questionnaire_filepath name →
  files (Meaning.main E a w).2 !! p = files w !! p
  ∧ files (Questionnaire.main E a w).2 !! p = files w !! p
  ∧ files (Questionnaire.main E a w).2 !! meaning_filepath name
    = files w !! meaning_filepath name
  ∧ files (Meaning.main E a w).2 !! questionnaire_filepath name
    = files w !! questionnaire_filepath name.
Proof.
  intros name Hm Hq.
  destruct (essay_files_spec E a w) as [->|(b1 & ->)];
    destruct (questionnaire_files_spec E a w) as [->|(b2 & ->)];
    fold name; repeat split; try done.
  all: rewrite lookup_insert_ne; try done.
  all: first [apply meaning_questionnaire_paths_differ
             |apply not_eq_sym, meaning_questionnaire_paths_differ].
Qed.

Lemma run_touches_only_its_output_witness :
  files (Meaning.main Samples.env_padded Samples.camus_args
           Samples.camus_world).2 !! py "../thinkers_texts/notes.txt"
  = files Samples.camus_world !! py "../thinkers_texts/notes.txt"
  ∧ files (Questionnaire.main Samples.env_padded Samples.camus_args
             Samples.camus_world).2 !! py "../thinkers_texts/notes.txt"
    = files Samples.camus_world !! py "../thinkers_texts/notes.txt"
  ∧ files (Questionnaire.main Samples.env_padded Samples.camus_args
             Samples.camus_world).2 !! meaning_filepath Samples.camus
    = files Samples.camus_world !! meaning_filepath Samples.camus
  ∧ files (Meaning.main Samples.env_padded Samples.camus_args
             Samples.camus_world).2 !! questionnaire_filepath Samples.camus
    = files Samples.camus_world !! questionnaire_filepath Samples.camus.
Proof.
  apply (run_touches_only_its_output Samples.env_padded Samples.camus_args
           Samples.camus_world (py "../thinkers_texts/notes.txt"));
    vm_compute; discriminate.
Defined.

Lemma new_events_extend (w : world) (evs : list event) :
  new_events w (extend w evs) = evs.
Proof. unfold new_events, extend. cbn [trace]. apply drop_app_length. Qed.

Lemma new_events_write (w : world) (fs : gmap str str) (evs : list event) :
  new_events w {| files := fs; trace := trace w ++ evs |} = evs.
Proof. unfold new_events. cbn [trace]. apply drop_app_length. Qed.

Lemma chat_calls_handler_prints (e : exn) : chat_calls (handler_prints e) = [].
Proof. by destruct e. Qed.

Lemma single_item_chat_calls (E : env) (a : args) (w : world) :
  chat_calls (new_events w (Meaning.main E a w).2) = essay_calls E a
  ∧ chat_calls (new_events w (Questionnaire.main E a w).2)
    = questionnaire_calls E a w.
Proof.
  split.
  - rewrite MeaningFacts.essay_main_spec. cbv zeta. unfold essay_calls.
    destruct (resolve_key E (arg_api_key a)) as [k|]; cbn [snd];
      [|by rewrite new_events_extend].
    destruct (chat_completion E k _) as [e|content]; cbn [snd];
      [by rewrite new_events_extend|].
    destruct (str_truthy (strip content)); cbn [snd];
      [|by rewrite new_events_extend].
    destruct (open_for_write E _); cbn [snd];
      [by rewrite new_events_extend|by rewrite new_events_write].
  - rewrite QuestionnaireFacts.questionnaire_main_spec. cbv zeta.
    unfold questionnaire_calls.
    destruct (files w !! _) as [text|]; cbn [snd];
      [|by rewrite new_events_extend].
    destruct (resolve_key E (arg_api_key a)) as [k|]; cbn [snd];
      [|by rewrite new_events_extend].
    destruct (chat_completion E k _) as [e|content]; cbn [snd];
      [by rewrite new_events_extend|].
    destruct (str_truthy (strip content)); cbn [snd];
      [|by rewrite new_events_extend].
    destruct (open_for_write E _) as [e|]; cbn [snd];
      [|by rewrite new_events_write].
    rewrite new_events_extend. unfold chat_calls. cbn [List.filter is_chat
      questionnaire_greeting loaded]. fold (chat_calls (handler_prints e)).
    by rewrite chat_calls_handler_prints.
Qed.

(** X5: a single-item run sends at most one request to the collaborator, and
    never a second one after a failure: the essay script sends exactly
    one when a credential is at hand, the questionnaire script exactly
    one when the essay exists and a credential is at hand; otherwise none
    is sent. *)
Theorem collaborator_called_at_most_once (E : env) (a : args) (w : world) :
  chat_calls (new_events w (Meaning.main E a w).2) = essay_calls E a
  ∧ chat_calls (new_events w (Questionnaire.main E a w).2)
    = questionnaire_calls E a w
  ∧ length (essay_calls E a) ≤ 1
  ∧ length (questionnaire_calls E a w) ≤ 1.
Proof.
  destruct (single_item_chat_calls E a w) as [H1 H2].
  split; [done|]. split; [done|]. split.
  - unfold essay_calls. destruct (resolve_key E _); cbn; lia.
  - unfold questionnaire_calls.
    destruct (files w !! _); [destruct (resolve_key E _)|]; cbn; lia.
Qed.

(** X6: the questionnaire is generated from the whole essay file.  After
    a successful essay run whose file holds no carriage return (text mode
    would turn those into line feeds on reading), a questionnaire run for
    the same thinker reads back the header and the text that run wrote,
    and the one request it sends carries both, header included, as the
    thinker's text. *)
Theorem questionnaire_reads_whole_essay_file (E1 E2 : env) (a : args)
    (w : world) (text k : str) :
  let name := arg_thinker_name a in
  let w1 := (Meaning.main E1 a w).2 in
  essay_answer E1 a = Some text →
  no_carriage_return (Meaning.header (now E1) name ++ text) = true →
  resolve_key E2 (arg_api_key a) = Some k →
  Questionnaire.read_thinker_text name w1
  = (Return (Meaning.header (now E1) name ++ text), w1)
  ∧ chat_calls (new_events w1 (Questionnaire.main E2 a w1).2)
    = [ChatCompletion k
         (questionnaire_request name (Meaning.header (now E1) name ++ text)
            (arg_model a))].
Proof.
  cbv zeta. intros Hans _ Hk.
  destruct (essay_answer_Some E1 a w text Hans) as (evs & Hmain).
  rewrite Hmain. cbn [snd]. split.
  - rewrite QuestionnaireFacts.read_thinker_text_spec. cbn [files].
    by rewrite lookup_insert_eq.
  - match goal with |- context [Questionnaire.main E2 a ?w1] =>
      destruct (single_item_chat_calls E2 a w1) as (_ & Hc)
    end.
    rewrite Hc. unfold questionnaire_calls. cbn [files].
    by rewrite lookup_insert_eq, Hk.
Qed.

Lemma questionnaire_reads_whole_essay_file_witness :
  let w1 := (Meaning.main Samples.env_padded Samples.camus_args
               Samples.empty_world).2 in
  Questionnaire.read_thinker_text Samples.camus w1
  = (Return (Meaning.header (now Samples.env_padded) Samples.camus
             ++ strip Samples.padded_answer), w1)
  ∧ chat_calls (new_events w1
                  (Questionnaire.main MoreSamples.env_later
                     Samples.camus_args w1).2)
    = [ChatCompletion (py "sk-test")
         (questionnaire_request Samples.camus
            (Meaning.header (now Samples.env_padded) Samples.camus
             ++ strip Samples.padded_answer)
            (py "gpt-4"))].
Proof.
  apply (questionnaire_reads_whole_essay_file Samples.env_padded
           MoreSamples.env_later Samples.camus_args Samples.empty_world
           (strip Samples.padded_answer) (py "sk-test"));
    vm_compute; reflexivity.
Defined.

(** *** Stripping *)

Lemma lstrip_head (s : str) (c : N) (r : str) :
  lstrip s = c :: r → is_space c = false.
Proof.
  induction s as [|x s IH]; cbn; [done|].
  destruct (is_space x) eqn:Hx; [done|]. by intros [= <- _].
Qed.

Lemma lstrip_snoc (s : str) (c : N) :
  is_space c = false → lstrip (s ++ [c]) = lstrip s ++ [c].
Proof.
  intros Hc. induction s as [|x s IH]; cbn.
  - by rewrite Hc.
  - by destruct (is_space x).
Qed.

Lemma lstrip_fixed (s : str) (c : N) :
  is_space c = false → lstrip (c :: s) = c :: s.
Proof. intros Hc. cbn. by rewrite Hc. Qed.

Lemma rstrip_last (s : str) (c : N) :
  last (rstrip s) = Some c → is_space c = false.
Proof.
  unfold rstrip. rewrite last_reverse.
  destruct (lstrip (reverse s)) as [|x r] eqn:Hl; [done|].
  cbn. intros [= <-]. by apply (lstrip_head _ _ _ Hl).
Qed.

Lemma rstrip_head (s : str) (c : N) :
  is_space c = false → ∃ r, rstrip (c :: s) = c :: r.
Proof.
  intros Hc. unfold rstrip. rewrite reverse_cons, (lstrip_snoc _ _ Hc).
  rewrite reverse_app. cbn. by eexists.
Qed.

Lemma rstrip_fixed (s : str) (c : N) :
  last s = Some c → is_space c = false → rstrip s = s.
Proof.
  intros Hlast Hc. unfold rstrip.
  destruct (reverse s) as [|x r] eqn:Hr.
  { apply (f_equal reverse) in Hr. rewrite reverse_involutive in Hr.
    by subst. }
  assert (x = c) as ->.
  { rewrite <- (reverse_involutive s), Hr, last_reverse in Hlast.
    by injection Hlast. }
  rewrite (lstrip_fixed _ _ Hc), <- Hr. apply reverse_involutive.
Qed.

(** X7: the text the essay generator returns, and so the text that is
    persisted, never begins or ends with white space, and stripping it
    again changes nothing. *)
Theorem generated_text_is_stripped (E : env) (name : str)
    (key : option str) (model : str) (w w' : world) (text : str) :
  Meaning.generate_thinker_meaning_essay E name key model w
  = (Return (Some text), w') →
  (∀ c r, text = c :: r → is_space c = false)
  ∧ (∀ c, last text = Some c → is_space c = false)
  ∧ strip text = text.
Proof.
  rewrite MeaningFacts.essay_generate_spec. cbv zeta.
  destruct (resolve_key E key) as [k|]; [|done].
  destruct (chat_completion E k _) as [e|content]; [done|].
  intros [= <- _]. unfold strip.
  assert (∀ c r, rstrip (lstrip content) = c :: r → is_space c = false)
    as Hhead.
  { intros c r. destruct (lstrip content) as [|x l] eqn:Hl; [done|].
    pose proof (lstrip_head _ _ _ Hl) as Hx.
    destruct (rstrip_head l x Hx) as (r' & ->). by intros [= <- _]. }
  split; [done|]. split; [apply rstrip_last|].
  destruct (rstrip (lstrip content)) as [|x l] eqn:Hs; [done|].
  pose proof (Hhead x l eq_refl) as Hx.
  rewrite (lstrip_fixed _ _ Hx).
  destruct (last (x :: l)) as [c|] eqn:Hlast;
    [|by apply last_None in Hlast].
  apply (rstrip_fixed _ c Hlast).
  apply (rstrip_last (lstrip content)). by rewrite Hs.
Qed.

Lemma generated_text_is_stripped_witness :
  (∀ c r, strip Samples.padded_answer = c :: r → is_space c = false)
  ∧ (∀ c, last (strip Samples.padded_answer) = Some c → is_space c = false)
  ∧ strip (strip Samples.padded_answer) = strip Samples.padded_answer.
Proof.
  apply (generated_text_is_stripped Samples.env_padded Samples.camus None
           (py "gpt-4") Samples.empty_world
           (extend Samples.empty_world
              [ChatCompletion (py "sk-test")
                 (essay_request Samples.camus (py "gpt-4"))])).
  vm_compute. reflexivity.
Defined.

(** ** The batch orchestrators *)

(** X8: the runner never raises, whatever happens to the child: it
    starts exactly one child process, with the command line
    [[sys.executable, script, thinker_name]] followed by
    [--api-key <key>] when a non-empty key was passed, and what it
    returns is decided by what [subprocess.run] gives for that command
    line: [True] exactly when the child completed with return code 0,
    [False] when it completed with another code or could not be
    started. *)
Theorem runner_reports_child_status (B : Batch.batch_env)
    (thinker_name : str) (api_key : option str) (w : world) :
  let flags := match truthy_value api_key with
               | Some k => [py "--api-key"; k]
               | None => []
               end in
  let essay_cmd :=
    [Batch.sys_executable B; py "generate_thinker_meaning.py"; thinker_name]
    ++ flags in
  let questionnaire_cmd :=
    [Batch.sys_executable B; py "generate_thinker_questionnaires.py";
     thinker_name] ++ flags in
  let essay_child :=
    Batch.subprocess_run B (trace w ++ banner (py "essay") thinker_name)
      essay_cmd in
  let questionnaire_child :=
    Batch.subprocess_run B
      (trace w ++ banner (py "questionnaire") thinker_name)
      questionnaire_cmd in
  (∃ (ok : bool) (evs : list event),
     BatchThinkers.run_thinker_generation B thinker_name api_key w
     = (Return ok, extend w evs)
     ∧ schedule evs = [Item essay_cmd]
     ∧ (ok = true ↔ ∃ out err, essay_child = Completed 0 out err)
     ∧ (ok = false
        ↔ (∃ rc out err, essay_child = Completed rc out err ∧ rc ≠ 0%Z)
          ∨ ∃ e, essay_child = SpawnRaises e))
  ∧ (∃ (ok : bool) (evs : list event),
       BatchQuestionnaires.run_questionnaire_generation B thinker_name
         api_key w
       = (Return ok, extend w evs)
       ∧ schedule evs = [Item questionnaire_cmd]
       ∧ (ok = true ↔ ∃ out err, questionnaire_child = Completed 0 out err)
       ∧ (ok = false
          ↔ (∃ rc out err,
               questionnaire_child = Completed rc out err ∧ rc ≠ 0%Z)
            ∨ ∃ e, questionnaire_child = SpawnRaises e)).
Proof.
  assert (∀ o, child_ok o = true ↔ ∃ out err, o = Completed 0 out err)
    as Hok.
  { intros [rc out err|e]; cbn.
    - rewrite Z.eqb_eq. split; [intros ->; by eexists _, _|].
      by intros (? & ? & [= -> _ _]).
    - split; [done|]. by intros (? & ? & ?). }
  assert (∀ o, child_ok o = false
               ↔ (∃ rc out err, o = Completed rc out err ∧ rc ≠ 0%Z)
                 ∨ ∃ e, o = SpawnRaises e) as Hko.
  { intros [rc out err|e]; cbn.
    - rewrite Z.eqb_neq. split.
      + intros Hrc. left. by eexists _, _, _.
      + intros [(? & ? & ? & [= -> _ _] & Hrc)|(? & ?)]; done.
    - split; [|done]. intros _. right. by eexists. }
  cbv zeta. split.
  - unfold BatchThinkers.run_thinker_generation.
    rewrite BatchFacts.run_generation_spec. cbv zeta. unfold command.
    eexists _, _. split; [reflexivity|].
    split; [apply BatchFacts.schedule_run_events|].
    split; [apply Hok|apply Hko].
  - unfold BatchQuestionnaires.run_questionnaire_generation.
    rewrite BatchFacts.run_generation_spec. cbv zeta. unfold command.
    eexists _, _. split; [reflexivity|].
    split; [apply BatchFacts.schedule_run_events|].
    split; [apply Hok|apply Hko].
Qed.

Section UniformVerdict.

Variable B : Batch.batch_env.
Variables script noun : str.
Variable key : option str.
Variable seconds : nat.
Variable verdict : bool.

Hypothesis every_child :
  ∀ (h : list event) (cmd : list str),
    child_ok (Batch.subprocess_run B h cmd) = verdict.

(** When every child ends the same way, the counters after the loop are
    all on one side. *)
Lemma for_each_uniform (n : nat) (items : list str) :
  ∀ (i successful failed : nat) (w : world),
    ∃ evs : list event,
      Batch.for_each (fun t => Batch.run_generation B script noun t key)
        seconds n i items successful failed w
      = (Return (if verdict then (successful + length items, failed)
                 else (successful, failed + length items)),
         extend w evs).
Proof.
  induction items as [|thinker rest IH]; intros i s f w.
  - exists []. rewrite BatchFacts.extend_nil. cbn.
    rewrite !Nat.add_0_r. by destruct verdict.
  - cbn [Batch.for_each]. unfold mbind at 1 2. unfold M_bind at 1 2.
    unfold print at 1, emit at 1. cbv beta iota.
    rewrite BatchFacts.run_generation_spec. cbv zeta.
    rewrite every_child.
    set (w1 := extend _ _).
    assert (∃ evs1, (if i <? n
                     then print (py "⏳ Waiting " ++ str_of_nat seconds
                                 ++ py " seconds before next request...");;
                          emit (Sleep seconds)
                     else mret tt) w1 = (Return tt, extend w1 evs1))
      as (evs1 & Hwait).
    { destruct (i <? n).
      - eexists. run_monad. flatten_trace. reflexivity.
      - exists []. by rewrite BatchFacts.extend_nil. }
    unfold mbind at 1, M_bind at 1. rewrite Hwait.
    destruct (IH (i + 1) (if verdict then s + 1 else s)
                (if verdict then f else f + 1) (extend w1 evs1))
      as (evs2 & ->).
    eexists. f_equal.
    + cbn [length]. destruct verdict; do 2 f_equal; lia.
    + unfold w1, extend. cbn [files trace]. rewrite <- !app_assoc.
      reflexivity.
Qed.

End UniformVerdict.

Lemma extend_inj (w : world) (evs1 evs2 : list event) :
  extend w evs1 = extend w evs2 → evs1 = evs2.
Proof. unfold extend. intros [= H]. by apply app_inv_head in H. Qed.

Lemma prompt_free_prints (evs : list event) :
  Forall (fun e => is_print e = true) evs → prompt_free evs.
Proof. intros H. eapply Forall_impl; [exact H|]. by intros []. Qed.

Section LoopEvents.

Variable B : Batch.batch_env.
Variables script noun : str.
Variable key : option str.
Variable seconds : nat.

(** The loop never asks the user for anything. *)
Lemma for_each_prompt_free (n : nat) (items : list str) :
  ∀ (i successful failed : nat) (w : world),
    ∃ (r : nat * nat) (evs : list event),
      Batch.for_each (fun t => Batch.run_generation B script noun t key)
        seconds n i items successful failed w
      = (Return r, extend w evs)
      ∧ prompt_free evs.
Proof.
  induction items as [|thinker rest IH]; intros i s f w.
  - eexists _, []. rewrite BatchFacts.extend_nil. by split; [|constructor].
  - cbn [Batch.for_each]. unfold mbind at 1 2. unfold M_bind at 1 2.
    unfold print at 1, emit at 1. cbv beta iota.
    rewrite BatchFacts.run_generation_spec. cbv zeta.
    set (o := Batch.subprocess_run B _ _).
    set (w1 := extend _ _).
    assert (∃ evs1, (if i <? n
                     then print (py "⏳ Waiting " ++ str_of_nat seconds
                                 ++ py " seconds before next request...");;
                          emit (Sleep seconds)
                     else mret tt) w1 = (Return tt, extend w1 evs1)
                    ∧ prompt_free evs1)
      as (evs1 & Hwait & Hfree1).
    { destruct (i <? n).
      - eexists. split; [run_monad; flatten_trace; reflexivity|].
        by repeat constructor.
      - exists []. rewrite BatchFacts.extend_nil. by split; [|constructor]. }
    unfold mbind at 1, M_bind at 1. rewrite Hwait.
    destruct (IH (i + 1) (if child_ok o then s + 1 else s)
                (if child_ok o then f else f + 1) (extend w1 evs1))
      as (r & evs2 & -> & Hfree2).
    eexists r, _. split.
    + f_equal. unfold w1, extend. cbn [files trace]. rewrite <- !app_assoc.
      reflexivity.
    + apply Forall_app. split; [by repeat constructor|].
      unfold banner. cbn [app].
      repeat (apply Forall_cons; split; [done|]).
      apply Forall_app. split; [|by apply Forall_app].
      apply prompt_free_prints, BatchFacts.verdict_prints_print.
Qed.

End LoopEvents.



Section BatchShape.

Variable B : Batch.batch_env.

Lemma thinkers_run_batch_shape (thinkers : list str) (w : world) :
  ∃ (r : nat * nat) (evs : list event),
    BatchThinkers.run_batch B thinkers w
    = (Return r, extend w (key_prompt :: evs))
    ∧ prompt_free evs.
Proof.
  unfold BatchThinkers.run_batch, Batch.ask_api_key.
  unfold mbind at 1 2 3 4. unfold M_bind at 1 2 3 4.
  unfold print, emit, mret, M_ret. cbv beta iota.
  unfold BatchThinkers.run_thinker_generation, Batch.process_all.
  set (w1 := {| files := _; trace := _ |}).
  destruct (for_each_prompt_free B (py "generate_thinker_meaning.py")
              (py "essay")
              (truthy_value (Some (strip (Batch.stdin_line B))))
              BatchThinkers.pause_seconds (length thinkers) thinkers 1 0 0 w1)
    as (r & evs & -> & Hfree).
  eexists r, _. split.
  - f_equal. unfold w1, extend, key_prompt. cbn [files trace].
    rewrite <- !app_assoc. reflexivity.
  - by repeat constructor.
Qed.

Lemma questionnaires_run_batch_shape (thinkers : list str) (w : world) :
  ∃ (r : nat * nat) (evs : list event),
    BatchQuestionnaires.run_batch B thinkers w
    = (Return r, extend w (key_prompt :: evs))
    ∧ prompt_free evs.
Proof.
  unfold BatchQuestionnaires.run_batch, Batch.ask_api_key.
  unfold mbind at 1 2 3 4. unfold M_bind at 1 2 3 4.
  unfold print, emit, mret, M_ret. cbv beta iota.
  unfold BatchQuestionnaires.run_questionnaire_generation, Batch.process_all.
  set (w1 := {| files := _; trace := _ |}).
  destruct (for_each_prompt_free B (py "generate_thinker_questionnaires.py")
              (py "questionnaire")
              (truthy_value (Some (strip (Batch.stdin_line B))))
              BatchQuestionnaires.pause_seconds (length thinkers) thinkers
              1 0 0 w1)
    as (r & evs & -> & Hfree).
  eexists r, _. split.
  - f_equal. unfold w1, extend, key_prompt. cbn [files trace].
    rewrite <- !app_assoc. reflexivity.
  - by repeat constructor.
Qed.

End BatchShape.


Lemma scanned_thinkers_nil (B : Batch.batch_env) (w : world) :
  scanned_thinkers B w = [] ↔ matching_essays B w = [].
Proof.
  unfold scanned_thinkers, matching_essays, get_available_thinkers.
  destruct (Batch.listdir B (trace w) thinkers_dir) as [entries|].
  - split; intros H.
    + pose proof (sorted_Permutation
                    (List.map thinker_name_of_file (glob_meaning entries)))
        as Hp.
      rewrite H in Hp. apply Permutation_nil_l in Hp.
      symmetry in Hp. by apply map_eq_nil in Hp.
    + by rewrite H.
  - done.
Qed.

Lemma questionnaires_main_starts_with_prompt (B : Batch.batch_env)
    (w : world) :
  scanned_thinkers B w ≠ [] →
  ∃ evs : list event,
    BatchQuestionnaires.main B w = (Return tt, extend w (key_prompt :: evs)).
Proof.
  intros Hne. unfold BatchQuestionnaires.main.
  unfold mbind at 1, M_bind at 1.
  change (history w) with (Return (trace w), w). cbv beta iota zeta.
  fold (scanned_thinkers B w).
  destruct (scanned_thinkers B w) as [|t rest]; [done|].
  unfold mbind at 1, M_bind at 1.
  destruct (questionnaires_run_batch_shape B (t :: rest) w)
    as ([s f] & evs & -> & _).
  match goal with |- context [Batch.summary B ?t ?s ?d ?x ?a ?b ?c ?w'] =>
    destruct (BatchMainFacts.summary_spec B t s d x a b c w')
      as (more & -> & _) end.
  rewrite BatchFacts.extend_extend. by eexists.
Qed.

(** X10: the questionnaire batch has nothing to do exactly when the essay
    directory does not exist or holds no file whose name ends in
    [_meaning.txt]: it then prints two lines and stops, without asking
    for a credential and without starting a child process.  In every
    other case the first thing it does is to ask for the credential. *)
Theorem questionnaire_batch_without_essays (B : Batch.batch_env)
    (w : world) :
  (matching_essays B w = []
   ↔ BatchQuestionnaires.main B w = (Return tt, extend w nothing_to_do))
  ∧ (matching_essays B w ≠ []
     ↔ ∃ evs : list event,
         BatchQuestionnaires.main B w
         = (Return tt, extend w (key_prompt :: evs))).
Proof.
  assert (matching_essays B w = [] →
          BatchQuestionnaires.main B w = (Return tt, extend w nothing_to_do))
    as Hnone.
  { intros H. apply scanned_thinkers_nil in H.
    pose proof (BatchMainFacts.questionnaires_main_spec B w) as Hmain.
    by rewrite H in Hmain. }
  assert (matching_essays B w ≠ [] →
          ∃ evs, BatchQuestionnaires.main B w
                 = (Return tt, extend w (key_prompt :: evs))) as Hsome.
  { intros H. apply questionnaires_main_starts_with_prompt.
    by rewrite scanned_thinkers_nil. }
  split; split; try done.
  - intros Hmain.
    destruct (decide (matching_essays B w = [])) as [|Hne]; [done|].
    exfalso. destruct (Hsome Hne) as (evs & Hmain').
    rewrite Hmain in Hmain'. injection Hmain' as Hw.
    apply app_inv_head in Hw. discriminate Hw.
  - intros (evs & Hmain) Hnil. rewrite (Hnone Hnil) in Hmain.
    injection Hmain as Hw. apply app_inv_head in Hw. discriminate Hw.
Qed.

Lemma summary_zero (B : Batch.batch_env)
    (title_line saved_line dir suffix : str) (failed total : nat)
    (w : world) :
  Batch.summary B title_line saved_line dir suffix 0 failed total w
  = (Return tt, extend w (tally_prints title_line 0 failed total)).
Proof. unfold Batch.summary, tally_prints. run_monad. by flatten_trace. Qed.

(** X11: the tally follows the exit status of the children: when every child
    completes with return code 0 the report of the essay batch says 5
    successful and 0 failed; when none does (non-zero return code, or the
    child could not be started) it says 0 successful and 5 failed and
    ends there, without the list of files. *)
Theorem tally_follows_exit_status (B : Batch.batch_env) (w : world)
    (verdict : bool) :
  (∀ (h : list event) (cmd : list str),
     child_ok (Batch.subprocess_run B h cmd) = verdict) →
  ∃ evs more : list event,
    BatchThinkers.main B w
    = (Return tt,
       extend w (key_prompt :: evs
                 ++ tally_prints essay_title
                      (if verdict then 5 else 0) (if verdict then 0 else 5) 5
                 ++ more))
    ∧ prompt_free evs
    ∧ (verdict = false → more = []).
Proof.
  intros Hall.
  destruct (thinkers_run_batch_shape B BatchThinkers.thinkers w)
    as (r & evs & Hrun & Hfree).
  assert (r = if verdict then (5, 0) else (0, 5)) as ->.
  { revert Hrun. unfold BatchThinkers.run_batch, Batch.ask_api_key.
    unfold mbind at 1 2 3 4. unfold M_bind at 1 2 3 4.
    unfold print, emit, mret, M_ret. cbv beta iota.
    unfold BatchThinkers.run_thinker_generation, Batch.process_all.
    set (w1 := {| files := _; trace := _ |}).
    destruct (for_each_uniform B (py "generate_thinker_meaning.py")
                (py "essay")
                (truthy_value (Some (strip (Batch.stdin_line B))))
                BatchThinkers.pause_seconds verdict Hall
                (length BatchThinkers.thinkers) BatchThinkers.thinkers
                1 0 0 w1) as (evs' & ->).
    intros [= <- _]. by destruct verdict. }
  unfold BatchThinkers.main. unfold mbind at 1, M_bind at 1. rewrite Hrun.
  destruct verdict.
  - match goal with |- context [Batch.summary B ?t ?s ?d ?x ?a ?b ?c ?w'] =>
      destruct (BatchMainFacts.summary_spec B t s d x a b c w')
        as (more & -> & _) end.
    exists evs, more. rewrite BatchFacts.extend_extend.
    split; [unfold essay_title; reflexivity|]. by split.
  - rewrite summary_zero. exists evs, [].
    rewrite BatchFacts.extend_extend, app_nil_r.
    split; [unfold essay_title; reflexivity|]. by split.
Qed.

Lemma tally_follows_exit_status_witness :
  ∃ evs more : list event,
    BatchThinkers.main MoreSamples.batch_with_key Samples.empty_world
    = (Return tt,
       extend Samples.empty_world
         (key_prompt :: evs ++ tally_prints essay_title 5 0 5 ++ more))
    ∧ prompt_free evs
    ∧ (true = false → more = []).
Proof.
  apply (tally_follows_exit_status MoreSamples.batch_with_key
           Samples.empty_world true).
  intros h cmd. reflexivity.
Defined.

(** ** Naming *)

Lemma replace_space (s : str) :
  replace (py " ") (py "_") s = List.map underscore s.
Proof.
  change (py " ") with [32%N]. change (py "_") with [95%N].
  unfold replace. induction s as [|c s IH]; [done|].
  cbn [replace_scan is_prefix length Nat.sub List.map].
  rewrite andb_true_r, N.eqb_sym. unfold underscore at 1.
  destruct (c =? 32)%N; cbn [app]; by rewrite IH.
Qed.

Lemma is_upper_latin1_spec (c : N) :
  is_upper_latin1 c = true
  ↔ (65 ≤ c ≤ 90 ∨ 192 ≤ c ≤ 214 ∨ 216 ≤ c ≤ 222)%N.
Proof.
  unfold is_upper_latin1, in_range.
  rewrite !orb_true_iff, !andb_true_iff, !N.leb_le. tauto.
Qed.

Lemma lower_cp_idemp (c : N) : lower_cp (lower_cp c) = lower_cp c.
Proof.
  unfold lower_cp. destruct (is_upper_latin1 c) eqn:Hc; [|by rewrite Hc].
  apply is_upper_latin1_spec in Hc.
  destruct (is_upper_latin1 (c + 32)) eqn:Hc'; [|done].
  apply is_upper_latin1_spec in Hc'. lia.
Qed.

Lemma lower_cp_space (c : N) : lower_cp c = 32%N ↔ c = 32%N.
Proof.
  unfold lower_cp. destruct (is_upper_latin1 c) eqn:Hc; [|done].
  apply is_upper_latin1_spec in Hc. lia.
Qed.

Lemma slug_map (name : str) :
  slug name = List.map (fun c => lower_cp (underscore c)) name.
Proof. unfold slug, lower. by rewrite replace_space, map_map. Qed.

Lemma underscore_not_space (c : N) : underscore c ≠ 32%N.
Proof.
  unfold underscore. destruct (N.eqb_spec c 32); [lia|done].
Qed.

Lemma slug_char_idemp (c : N) :
  lower_cp (underscore (lower_cp (underscore c))) = lower_cp (underscore c).
Proof.
  assert (lower_cp (underscore c) ≠ 32%N) as Hne.
  { intros H. apply (proj1 (lower_cp_space _)) in H.
    by apply underscore_not_space in H. }
  assert (underscore (lower_cp (underscore c)) = lower_cp (underscore c))
    as ->.
  { unfold underscore at 1. apply N.eqb_neq in Hne. by rewrite Hne. }
  apply lower_cp_idemp.
Qed.

(** X12: for a name of Latin-1 characters the slug is a canonical form:
    it has as many characters as the name, holds no space, and is its own
    slug; so such a name and its slug (and any two such names that differ
    only in letter case or in spaces against underscores) are kept in the
    same essay file. *)
Theorem slug_is_canonical (name : str) :
  latin1 name = true →
  slug (slug name) = slug name
  ∧ length (slug name) = length name
  ∧ (32%N ∉ slug name)
  ∧ latin1 (slug name) = true
  ∧ meaning_filepath (slug name) = meaning_filepath name
  ∧ slug (lower name) = slug name
  ∧ slug (replace (py " ") (py "_") name) = slug name.
Proof.
  intros Hlatin.
  assert (slug (slug name) = slug name) as Hidem.
  { rewrite !slug_map, map_map. apply map_ext. intros c.
    apply slug_char_idemp. }
  split; [done|]. split; [|split; [|split; [|split; [|split]]]].
  - rewrite slug_map. apply length_map.
  - rewrite slug_map. intros Hin. apply list_elem_of_In, in_map_iff in Hin.
    destruct Hin as (c & Hc & _). apply (proj1 (lower_cp_space _)) in Hc.
    by apply underscore_not_space in Hc.
  - rewrite slug_map. unfold latin1 in *. rewrite forallb_forall in *.
    intros d Hd. apply in_map_iff in Hd as (c & <- & Hc).
    specialize (Hlatin c Hc). apply N.ltb_lt in Hlatin. apply N.ltb_lt.
    unfold underscore, lower_cp.
    destruct (N.eqb_spec c 32) as [->|_]; [by vm_compute|].
    destruct (is_upper_latin1 c) eqn:Hup; [|done].
    apply is_upper_latin1_spec in Hup. lia.
  - unfold meaning_filepath, meaning_filename. by rewrite Hidem.
  - rewrite !slug_map. unfold lower. rewrite map_map. apply map_ext.
    intros c. destruct (N.eqb_spec c 32) as [->|Hc]; [done|].
    assert (lower_cp c ≠ 32%N) as Hl by (by rewrite lower_cp_space).
    unfold underscore. apply N.eqb_neq in Hc, Hl. rewrite Hc, Hl.
    apply lower_cp_idemp.
  - rewrite replace_space, !slug_map, map_map. apply map_ext. intros c.
    destruct (N.eqb_spec c 32) as [->|Hc]; [done|].
    unfold underscore. apply N.eqb_neq in Hc. by rewrite !Hc.
Qed.

Lemma slug_is_canonical_witness :
  slug (slug (py "Søren Kierkegaard")) = slug (py "Søren Kierkegaard")
  ∧ length (slug (py "Søren Kierkegaard")) = length (py "Søren Kierkegaard")
  ∧ (32%N ∉ slug (py "Søren Kierkegaard"))
  ∧ latin1 (slug (py "Søren Kierkegaard")) = true
  ∧ meaning_filepath (slug (py "Søren Kierkegaard"))
    = meaning_filepath (py "Søren Kierkegaard")
  ∧ slug (lower (py "Søren Kierkegaard")) = slug (py "Søren Kierkegaard")
  ∧ slug (replace (py " ") (py "_") (py "Søren Kierkegaard"))
    = slug (py "Søren Kierkegaard").
Proof.
  apply (slug_is_canonical (py "Søren Kierkegaard")).
  vm_compute. reflexivity.
Defined.

Lemma stem_txt (y : str) : y ≠ [] → stem (y ++ py ".txt") = y.
Proof.
  intros Hy.
  assert (rfind 46 (y ++ py ".txt") = Some (length y)) as Hr.
  { unfold rfind. rewrite reverse_app.
    change (reverse (py ".txt")) with [116%N; 120%N; 116%N; 46%N].
    cbn [app find_index N.eqb Pos.eqb fmap option_fmap option_map].
    rewrite length_app. change (length (py ".txt")) with 4.
    f_equal. lia. }
  unfold stem. rewrite Hr, length_app.
  change (length (py ".txt")) with 4.
  assert (0 < length y) as Hlen by (destruct y; [done|cbn; lia]).
  assert ((0 <? length y) = true) as -> by (by apply Nat.ltb_lt).
  assert ((length y <? length y + 4 - 1) = true) as ->
    by (apply Nat.ltb_lt; lia).
  cbn [andb]. apply take_app_length.
Qed.

Lemma stem_meaning_txt (x : str) :
  stem (x ++ py "_meaning.txt") = x ++ py "_meaning".
Proof.
  assert (py "_meaning.txt" = py "_meaning" ++ py ".txt") as ->
    by (vm_compute; reflexivity).
  rewrite (assoc_L (++)). apply stem_txt.
  intros H. apply (f_equal length) in H. rewrite length_app in H.
  change (length (py "_meaning")) with 8 in H. cbn in H. lia.
Qed.

Lemma sorted_singleton (x : str) : sorted [x] = [x].
Proof.
  symmetry. apply sorted_characterised; [|done].
  by repeat constructor.
Qed.

(** X13: what the essay script saves is what the questionnaire batch
    looks for.  For a thinker name of Latin-1 characters without path
    separator, the file name the essay script derives is one path
    component and matches the pattern [*_meaning.txt], the name of the
    questionnaire file does not, and the stem of the essay file name is
    the slug followed by [_meaning]; a directory that holds the two files
    of that thinker is scanned to the one display name of the essay
    file. *)
Theorem saved_essay_is_found_by_scan (name : str) :
  plain_name name = true →
  (47%N ∉ meaning_filename name)
  ∧ endswith (meaning_filename name) (py "_meaning.txt") = true
  ∧ endswith (questionnaire_filename name) (py "_meaning.txt") = false
  ∧ stem (meaning_filename name) = slug name ++ py "_meaning"
  ∧ glob_meaning [questionnaire_filename name; meaning_filename name]
    = [meaning_filename name]
  ∧ get_available_thinkers
      (Some [questionnaire_filename name; meaning_filename name])
    = [thinker_name_of_file (meaning_filename name)].
Proof.
  intros Hplain.
  assert (endswith (meaning_filename name) (py "_meaning.txt") = true) as H1
    by apply endswith_app.
  assert (endswith (questionnaire_filename name) (py "_meaning.txt") = false)
    as H2.
  { unfold questionnaire_filename. rewrite endswith_app_short.
    - by vm_compute.
    - change (length (py "_meaning.txt")) with 12.
      change (length (py "_questionnaire.txt")) with 18. lia. }
  assert (glob_meaning [questionnaire_filename name; meaning_filename name]
          = [meaning_filename name]) as H3.
  { unfold glob_meaning, glob_suffix. cbn [List.filter]. by rewrite H1, H2. }
  split; [|repeat split; try done].
  - unfold meaning_filename. rewrite slug_map. intros Hin.
    apply elem_of_app in Hin as [Hin|Hin].
    + apply list_elem_of_In, in_map_iff in Hin as (c & Hc & Hin).
      unfold plain_name in Hplain. rewrite forallb_forall in Hplain.
      specialize (Hplain c Hin).
      apply andb_true_iff in Hplain as [Hplain _].
      apply andb_true_iff in Hplain as [Hlt Hsep].
      apply negb_true_iff, N.eqb_neq in Hsep. apply N.ltb_lt in Hlt.
      revert Hc. unfold underscore, lower_cp.
      destruct (N.eqb_spec c 32) as [->|_]; [by vm_compute|].
      destruct (is_upper_latin1 c) eqn:Hup; [|done].
      apply is_upper_latin1_spec in Hup. lia.
    + revert Hin. apply (bool_decide_unpack _). by vm_compute.
  - apply stem_meaning_txt.
  - unfold get_available_thinkers. rewrite H3. cbn [List.map].
    apply sorted_singleton.
Qed.

Lemma saved_essay_is_found_by_scan_witness :
  (47%N ∉ meaning_filename Samples.camus)
  ∧ endswith (meaning_filename Samples.camus) (py "_meaning.txt") = true
  ∧ endswith (questionnaire_filename Samples.camus) (py "_meaning.txt")
    = false
  ∧ stem (meaning_filename Samples.camus)
    = slug Samples.camus ++ py "_meaning"
  ∧ glob_meaning [questionnaire_filename Samples.camus;
                  meaning_filename Samples.camus]
    = [meaning_filename Samples.camus]
  ∧ get_available_thinkers
      (Some [questionnaire_filename Samples.camus;
             meaning_filename Samples.camus])
    = [thinker_name_of_file (meaning_filename Samples.camus)].
Proof.
  apply (saved_essay_is_found_by_scan Samples.camus).
  vm_compute. reflexivity.
Defined.
